(** * SessionTexEngine: the texi2dvi invocation engine

    A shallow embedding of [src/cpp/session/modules/SessionTexEngine.cpp]
    (namespace [session::modules::tex::engine]) and the properties of its
    environment composition, argument construction and orchestration.

    Conventions of the embedding:
    - the compile-time switch [#ifdef _WIN32] is a [Platform] value read
      from the world the code runs in;
    - everything the code reads from outside (process environment, file
      system, the R interpreter, the session options, child processes) is
      a field of the record [World];
    - everything the code does to the outside (R calls, log entries,
      console writes, process launches) is an [Event] appended to a trace;
      a function of the source that has such effects is a computation in
      the monad [Eff]. *)

From Stdlib Require Import String Ascii List Bool ZArith Lia.
From ExtLib Require Import Structures.Monad.
Import ListNotations.
Import MonadNotation.
Local Open Scope string_scope.
Local Open Scope list_scope.
Local Open Scope monad_scope.

(* ===================================================================== *)
(** * Strings *)
(* ===================================================================== *)

Module Str.

(** The line feed written ["\n"] in the source. *)
Definition nl : string := String (ascii_of_nat 10) EmptyString.

Definition backslash : ascii := "\"%char.
Definition slash : ascii := "/"%char.

(** [boost::algorithm::replace_all(s, search, format)] at the only
    instances the engine uses, where [search] and [format] are literals
    of one character: every occurrence of the character [search] becomes
    [format]. *)
Fixpoint replace_all (s : string) (search format : ascii) : string :=
  match s with
  | EmptyString => EmptyString
  | String c rest =>
      String (if Ascii.eqb c search then format else c)
             (replace_all rest search format)
  end.

(** Number of occurrences of a character. *)
Fixpoint count (c : ascii) (s : string) : nat :=
  match s with
  | EmptyString => 0
  | String d rest => (if Ascii.eqb d c then 1 else 0) + count c rest
  end.

(** [hay.find(needle) != std::string::npos]. *)
Fixpoint contains (needle hay : string) : bool :=
  String.prefix needle hay ||
  match hay with
  | EmptyString => false
  | String _ rest => contains needle rest
  end.

(** [std::string::empty]. *)
Definition empty (s : string) : bool :=
  match s with EmptyString => true | _ => false end.

(** The part of [s] after its last ['/'] (all of [s] when it has none). *)
Fixpoint after_last_slash (s : string) : string :=
  match s with
  | EmptyString => EmptyString
  | String c rest =>
      if contains "/" rest then after_last_slash rest
      else if Ascii.eqb c slash then rest else s
  end.

(** The part of [s] before its last ['/'] (empty when it has none). *)
Fixpoint before_last_slash (s : string) : string :=
  match s with
  | EmptyString => EmptyString
  | String c rest =>
      if contains "/" rest then String c (before_last_slash rest)
      else EmptyString
  end.

End Str.

(* ===================================================================== *)
(** * Collaborators of the engine *)
(* ===================================================================== *)

(** [_WIN32] defined or not. *)
Inductive Platform : Type := Windows | Posix.

Definition is_windows (p : Platform) : bool :=
  match p with Windows => true | Posix => false end.

(** [core::Error]: only its [summary()] is observed.  A call that returns
    [Error] is an [option Error] ([None] is [Success()]). *)
Record Error : Type := mkError { summary : string }.

(** The outcome of a call that yields an [Error] or fills a result. *)
Inductive Outcome (A : Type) : Type :=
| Failed (e : Error)
| Ok (a : A).
Arguments Failed {A} e.
Arguments Ok {A} a.

(** Modelled from the spec: [core::FilePath] ([core/FilePath.hpp]) is not
    part of the sources at hand.  A path is the text of its absolute
    path; the empty path is the default-constructed [FilePath()]; a
    relative name is joined to a directory with ['/'], as in the spec's
    scenario, where the root [/opt/R/share/texmf] and [tex/latex] give
    [/opt/R/share/texmf/tex/latex]. *)
Record FilePath : Type := mkFilePath { absolutePath : string }.

Definition FilePath_default : FilePath := mkFilePath "".

(** [FilePath::empty]. *)
Definition FilePath_empty (p : FilePath) : bool := Str.empty (absolutePath p).

Definition complete (p : FilePath) (rel : string) : FilePath :=
  mkFilePath (absolutePath p ++ "/" ++ rel).

Definition childPath (p : FilePath) (rel : string) : FilePath := complete p rel.

(** The last component of the path and the directory that holds it. *)
Definition filename (p : FilePath) : string :=
  Str.after_last_slash (absolutePath p).

Definition parent (p : FilePath) : FilePath :=
  mkFilePath (Str.before_last_slash (absolutePath p)).

(** [core::system::Option] and [core::system::Options]: a name with its
    value, and a vector of them. *)
Definition Option : Type := (string * string)%type.
Definition Options : Type := list Option.

(** [shell_utils::ShellArgs]: the argument tokens in order; [<<] appends. *)
Definition ShellArgs : Type := list string.

Module Env.

(** The first entry called [name]. *)
Fixpoint lookup (name : string) (env : Options) : option string :=
  match env with
  | [] => None
  | (n, v) :: rest => if String.eqb n name then Some v else lookup name rest
  end.

(** The value the last entry called [name] gives it: what a sequence of
    assignments, one per entry, leaves in [name]. *)
Fixpoint lookup_last (name : string) (vars : Options) : option string :=
  match vars with
  | [] => None
  | (n, v) :: rest =>
      match lookup_last name rest with
      | Some v' => Some v'
      | None => if String.eqb n name then Some v else None
      end
  end.

(** Modelled from the spec: [core::system::setenv(Options*, name, value)]
    ([core/system/Environment.hpp]) is not part of the sources at hand.
    The spec has the overlay entry win on a name collision: the entry
    called [name] takes the new value in place, and a new name is added
    at the end. *)
Fixpoint setenv (env : Options) (name value : string) : Options :=
  match env with
  | [] => [(name, value)]
  | (n, v) :: rest =>
      if String.eqb n name then (n, value) :: rest
      else (n, v) :: setenv rest name value
  end.

(** Modelled from the spec: [core::system::addToPath(std::string*, path)]
    is not part of the sources at hand.  The spec's search-path value is
    a colon/semicolon-delimited sequence to which a segment is appended:
    the platform's delimiter, then the segment. *)
Definition pathSeparator (p : Platform) : string :=
  match p with Windows => ";" | Posix => ":" end.

Definition addToPath (p : Platform) (value path : string) : string :=
  value ++ pathSeparator p ++ path.

End Env.

(** [core::system::ProcessResult]. *)
Record ProcessResult : Type := mkProcessResult {
  exitStatus : Z;
  stdOut : string;
  stdErr : string
}.

Definition EXIT_SUCCESS : Z := 0%Z.

(** [core::system::ProcessOptions], the fields the engine sets; a field
    left alone keeps the value of [ProcessOptions()]. *)
Record ProcessOptions : Type := mkProcessOptions {
  terminateChildren : bool;
  environment : option Options;
  workingDir : FilePath
}.

Definition defaultProcessOptions : ProcessOptions :=
  mkProcessOptions false None FilePath_default.

(** [core::system::ProcessCallbacks]: where the supervisor sends what the
    child writes while it runs, after the launch has returned. *)
Inductive Sink : Type := ConsoleOutput | ConsoleError.

Record ProcessCallbacks : Type := mkProcessCallbacks {
  onStdout : Sink;
  onStderr : Sink
}.

(** R values at the boundary: the entry point takes the file name as a
    character value and returns [R_NilValue]. *)
Inductive SEXP : Type :=
| R_NilValue
| R_String (s : string).

Definition asString (x : SEXP) : string :=
  match x with R_String s => s | R_NilValue => "" end.

(* ===================================================================== *)
(** * The world and the effects *)
(* ===================================================================== *)

(** What the engine reads from outside during one invocation.  The
    process environment is a snapshot; the R interpreter, the file system
    and the two process launchers answer as functions of their inputs. *)
Record World : Type := mkWorld {
  platform : Platform;
  (** The order in which the compiled program evaluates the two arguments
      of the call of [executeTexToPdf] that have effects, which the
      language leaves open: [true] when [texi2dviShellArgs(...)] is
      evaluated before [texi2dviEnvironmentVars(...)]. *)
  shellArgsFirst : bool;
  (** [core::system::environment]: the ambient variables. *)
  environ : Options;
  (** [FilePath::exists], by absolute path. *)
  fs_exists : string -> bool;
  (** the value of the R call [R.home("share")], or the error of the call. *)
  r_home_share : Outcome string;
  (** [session::options().texScriptsPath()]. *)
  texScriptsPath : FilePath;
  (** [string_utils::utf8ToSystem]. *)
  utf8ToSystem : string -> string;
  (** [module_context::resolveAliasedPath]. *)
  resolveAliasedPath : string -> FilePath;
  (** [module_context::findProgram]; the empty path when not found. *)
  findProgram : string -> FilePath;
  (** [core::system::runProgram]: the synchronous run, to completion. *)
  runProgram : string -> ShellArgs -> string -> ProcessOptions ->
               Outcome ProcessResult;
  (** [processSupervisor().runProgram]: the asynchronous launch; the
      answer is the error of the launch, if any. *)
  superviseProgram : string -> ShellArgs -> ProcessOptions -> option Error
}.

(** What the engine does to the outside, in the order it does it. *)
Inductive Event : Type :=
| EvRCall (fn arg : string)
| EvLogError (what : string)
| EvRunProgram (exe : string) (args : ShellArgs) (input : string)
               (opts : ProcessOptions)
| EvSupervise (exe : string) (args : ShellArgs) (opts : ProcessOptions)
              (cb : ProcessCallbacks)
| EvConsoleError (text : string)
(** entry into one of the three stages the entry point chains *)
| EvEnter (fn : string).

(** A computation reads the world and yields a value and the events it
    caused. *)
Definition Eff (A : Type) : Type := World -> A * list Event.

Definition eff_ret {A : Type} (a : A) : Eff A := fun _ => (a, []).

Definition eff_bind {A B : Type} (m : Eff A) (k : A -> Eff B) : Eff B :=
  fun w =>
    let (a, t1) := m w in
    let (b, t2) := k a w in
    (b, t1 ++ t2).

#[export] Instance Monad_Eff : Monad Eff :=
  {| ret := @eff_ret; bind := @eff_bind |}.

Definition ask {A : Type} (f : World -> A) : Eff A := fun w => (f w, []).

Definition emit (e : Event) : Eff unit := fun _ => (tt, [e]).

(** The value and the trace of a computation. *)
Definition value_of {A : Type} (m : Eff A) (w : World) : A := fst (m w).
Definition trace_of {A : Type} (m : Eff A) (w : World) : list Event :=
  snd (m w).

(** [core::system::getenv]: the empty text for a variable that is not set. *)
Definition getenv (name : string) : Eff string :=
  ask (fun w => match Env.lookup name (environ w) with
                | Some v => v
                | None => ""
                end).

Definition path_exists (p : FilePath) : Eff bool :=
  ask (fun w => fs_exists w (absolutePath p)).

Definition toSystem (s : string) : Eff string :=
  ask (fun w => utf8ToSystem w s).

(** [LOG_ERROR]: an entry in the log, not on the console. *)
Definition LOG_ERROR (what : string) : Eff unit := emit (EvLogError what).

(** [module_context::consoleWriteError]. *)
Definition consoleWriteError (text : string) : Eff unit :=
  emit (EvConsoleError text).

(* ===================================================================== *)
(** * The engine *)
(* ===================================================================== *)

Record RTexmfPaths : Type := mkRTexmfPaths {
  texInputsPath : FilePath;
  bibInputsPath : FilePath;
  bstInputsPath : FilePath
}.

(** [RTexmfPaths()]. *)
Definition noRTexmfPaths : RTexmfPaths :=
  mkRTexmfPaths FilePath_default FilePath_default FilePath_default.

(** [RTexmfPaths::empty]. *)
Definition RTexmfPaths_empty (p : RTexmfPaths) : bool :=
  FilePath_empty (texInputsPath p).

Definition rTexmfPaths : Eff RTexmfPaths :=
  (* first determine the R share directory *)
  emit (EvRCall "R.home" "share") ;;
  called <- ask r_home_share ;;
  match called with
  | Failed error =>
      LOG_ERROR (summary error) ;;
      ret noRTexmfPaths
  | Ok rHomeShare =>
      let rHomeSharePath := mkFilePath rHomeShare in
      there <- path_exists rHomeSharePath ;;
      if negb there then
        LOG_ERROR rHomeShare ;;
        ret noRTexmfPaths
      else
        (* R texmf path *)
        let rTexmfPath := complete rHomeSharePath "texmf" in
        there' <- path_exists rTexmfPath ;;
        if negb there' then
          LOG_ERROR (absolutePath rTexmfPath) ;;
          ret noRTexmfPaths
        else
          (* populate and return struct *)
          ret (mkRTexmfPaths (childPath rTexmfPath "tex/latex")
                             (childPath rTexmfPath "bibtex/bib")
                             (childPath rTexmfPath "bibtex/bst"))
  end.

Definition inputsEnvVar (name : string) (extraPath : FilePath)
    (ensureForwardSlashes : bool) : Eff Option :=
  value <- getenv name ;;
  let value := if Str.empty value then "." else value in
  pf <- ask platform ;;
  (* #ifdef _WIN32 *)
  let value :=
    if is_windows pf && ensureForwardSlashes
    then Str.replace_all value Str.backslash Str.slash
    else value in
  sysPath <- toSystem (absolutePath extraPath) ;;
  let value := Env.addToPath pf value sysPath in
  let value := Env.addToPath pf value "" in
  ret (name, value).

Definition pdfLatexEnvVar : Eff Option :=
  pf <- ask platform ;;
  let kScriptEx := if is_windows pf then ".cmd" else ".sh" in
  scripts <- ask texScriptsPath ;;
  let pdfLatexPath := complete scripts ("rstudio-pdflatex" ++ kScriptEx) in
  path <- toSystem (absolutePath pdfLatexPath) ;;
  ret ("PDFLATEX", path).

Definition inputsEnvironmentVars : Eff Options :=
  let envVars : Options := [] in
  texmfPaths <- rTexmfPaths ;;
  if negb (RTexmfPaths_empty texmfPaths) then
    v1 <- inputsEnvVar "TEXINPUTS" (texInputsPath texmfPaths) true ;;
    v2 <- inputsEnvVar "BIBINPUTS" (bibInputsPath texmfPaths) false ;;
    v3 <- inputsEnvVar "BSTINPUTS" (bstInputsPath texmfPaths) false ;;
    ret (envVars ++ [v1] ++ [v2] ++ [v3])
  else
    ret envVars.

Definition texi2dviEnvironmentVars (_ : string) : Eff Options :=
  emit (EvEnter "texi2dviEnvironmentVars") ;;
  (* start with inputs (TEXINPUTS, BIBINPUTS, BSTINPUTS) *)
  envVars <- inputsEnvironmentVars ;;
  pf <- ask platform ;;
  (* #ifndef _WIN32 *)
  let envVars :=
    if is_windows pf then envVars
    else envVars ++ [("TEXINDY", "false")] ++ [("LC_COLLATE", "C")] in
  (* a custom variation of PDFLATEX *)
  pdflatex <- pdfLatexEnvVar ;;
  ret (envVars ++ [pdflatex]).

Definition texi2dviShellArgs (texVersionInfo : string) : Eff ShellArgs :=
  emit (EvEnter "texi2dviShellArgs") ;;
  let args : ShellArgs := [] in
  let args := args ++ ["--pdf"] in
  let args := args ++ ["--quiet"] in
  pf <- ask platform ;;
  (* #ifdef _WIN32 *)
  if is_windows pf && Str.contains "MiKTeX" texVersionInfo then
    texmfPaths <- rTexmfPaths ;;
    if negb (RTexmfPaths_empty texmfPaths) then
      texInputs <- toSystem (absolutePath (texInputsPath texmfPaths)) ;;
      let texInputs := Str.replace_all texInputs Str.backslash Str.slash in
      let args := args ++ ["-I"] ++ [texInputs] in
      bstInputs <- toSystem (absolutePath (bstInputsPath texmfPaths)) ;;
      let bstInputs := Str.replace_all bstInputs Str.backslash Str.slash in
      let args := args ++ ["-I"] ++ [bstInputs] in
      ret args
    else
      ret args
  else
    ret args.

Definition executeTexToPdf (texProgramPath : FilePath) (envVars : Options)
    (args : ShellArgs) (texFilePath : FilePath) : Eff (option Error) :=
  emit (EvEnter "executeTexToPdf") ;;
  (* copy extra environment variables *)
  env <- ask environ ;;
  let env :=
    fold_left (fun env var => Env.setenv env (fst var) (snd var))
              envVars env in
  (* setup args *)
  let procArgs : ShellArgs := [] in
  let procArgs := procArgs ++ args in
  let procArgs := procArgs ++ [filename texFilePath] in
  (* set options *)
  let procOptions :=
    {| terminateChildren := true;
       environment := Some env;
       workingDir := parent texFilePath |} in
  (* setup callbacks *)
  let cb := {| onStdout := ConsoleOutput; onStderr := ConsoleError |} in
  (* run the program *)
  exe <- toSystem (absolutePath texProgramPath) ;;
  emit (EvSupervise exe procArgs procOptions cb) ;;
  ask (fun w => superviseProgram w exe procArgs procOptions).

(** The two arguments of the call of [executeTexToPdf] in [rs_texToPdf]
    that have effects, evaluated in the order of the compiled program. *)
Definition evaluateArguments (texVersionInfo : string)
  : Eff (Options * ShellArgs) :=
  argsFirst <- ask shellArgsFirst ;;
  if argsFirst then
    args <- texi2dviShellArgs texVersionInfo ;;
    envVars <- texi2dviEnvironmentVars texVersionInfo ;;
    ret (envVars, args)
  else
    envVars <- texi2dviEnvironmentVars texVersionInfo ;;
    args <- texi2dviShellArgs texVersionInfo ;;
    ret (envVars, args).

(** The entry point. *)
Definition rs_texToPdf (filePathSEXP : SEXP) : Eff SEXP :=
  texFilePath <- ask (fun w => resolveAliasedPath w (asString filePathSEXP)) ;;
  (* get the path to the texi2dvi binary *)
  texi2dviPath <- ask (fun w => findProgram w "texi2dvi") ;;
  if FilePath_empty texi2dviPath then
    consoleWriteError ("can't find texi2dvi" ++ Str.nl) ;;
    ret R_NilValue
  else
    (* get version info from it *)
    exe <- toSystem (absolutePath texi2dviPath) ;;
    emit (EvRunProgram exe ["--version"] "" defaultProcessOptions) ;;
    probed <- ask (fun w => runProgram w exe ["--version"] ""
                                       defaultProcessOptions) ;;
    match probed with
    | Failed error =>
        consoleWriteError (summary error ++ Str.nl) ;;
        ret R_NilValue
    | Ok result =>
        if negb (Z.eqb (exitStatus result) EXIT_SUCCESS) then
          consoleWriteError (stdErr result) ;;
          ret R_NilValue
        else
          arguments <- evaluateArguments (stdOut result) ;;
          error <- executeTexToPdf texi2dviPath (fst arguments)
                                   (snd arguments) texFilePath ;;
          match error with
          | Some e => consoleWriteError (summary e ++ Str.nl)
          | None => ret tt
          end ;;
          ret R_NilValue
    end.

(** The texts written to the console's error sink, in order. *)
Fixpoint console_errors (t : list Event) : list string :=
  match t with
  | [] => []
  | EvConsoleError text :: rest => text :: console_errors rest
  | _ :: rest => console_errors rest
  end.

(** The launches of the compile process, in order. *)
Fixpoint launches (t : list Event)
  : list (string * ShellArgs * ProcessOptions) :=
  match t with
  | [] => []
  | EvSupervise exe args opts _ :: rest => (exe, args, opts) :: launches rest
  | _ :: rest => launches rest
  end.

(** The stages entered, in order. *)
Fixpoint stages (t : list Event) : list string :=
  match t with
  | [] => []
  | EvEnter fn :: rest => fn :: stages rest
  | _ :: rest => stages rest
  end.

(* ===================================================================== *)
(** * Derived notions used in the statements *)
(* ===================================================================== *)

(** The texmf directory of R's share directory, when R reports the share
    directory and both directories exist. *)
Definition texmfRoot (w : World) : option FilePath :=
  match r_home_share w with
  | Failed _ => None
  | Ok share =>
      if fs_exists w share &&
         fs_exists w (absolutePath (complete (mkFilePath share) "texmf"))
      then Some (complete (mkFilePath share) "texmf")
      else None
  end.

(** The ambient value of a variable as [inputsEnvVar] starts from it:
    [getenv(name)], or ["."] when that is empty. *)
Definition ambientOrDot (w : World) (name : string) : string :=
  let value := value_of (getenv name) w in
  if Str.empty value then "." else value.

(** The entry [pdfLatexEnvVar] builds. *)
Definition pdfLatexOption (w : World) : Option :=
  ("PDFLATEX",
   utf8ToSystem w
     (absolutePath
        (complete (texScriptsPath w)
           ("rstudio-pdflatex" ++
            (if is_windows (platform w) then ".cmd" else ".sh"))))).

(** The two path-injection flags with their values, as
    [texi2dviShellArgs] adds them. *)
Definition injection (w : World) (root : FilePath) : ShellArgs :=
  [ "-I";
    Str.replace_all
      (utf8ToSystem w (absolutePath (childPath root "tex/latex")))
      Str.backslash Str.slash;
    "-I";
    Str.replace_all
      (utf8ToSystem w (absolutePath (childPath root "bibtex/bst")))
      Str.backslash Str.slash ].

(** The options [executeTexToPdf] launches with. *)
Definition launchOptions (w : World) (envVars : Options)
    (texFilePath : FilePath) : ProcessOptions :=
  {| terminateChildren := true;
     environment :=
       Some (fold_left (fun env var => Env.setenv env (fst var) (snd var))
                       envVars (environ w));
     workingDir := parent texFilePath |}.

(** The program the entry point probes and launches, and the answer of
    the version probe. *)
Definition texi2dviExe (w : World) : string :=
  utf8ToSystem w (absolutePath (findProgram w "texi2dvi")).

Definition versionProbe (w : World) : Outcome ProcessResult :=
  runProgram w (texi2dviExe w) ["--version"] "" defaultProcessOptions.

Definition probeEvent (w : World) : Event :=
  EvRunProgram (texi2dviExe w) ["--version"] "" defaultProcessOptions.

(** The arguments and options of the launch for a probe output [info] and
    the file named by [file]. *)
Definition plannedArgs (w : World) (info : string) (file : SEXP) : ShellArgs :=
  value_of (texi2dviShellArgs info) w ++
  [filename (resolveAliasedPath w (asString file))].

Definition plannedOptions (w : World) (info : string) (file : SEXP)
  : ProcessOptions :=
  launchOptions w (value_of (texi2dviEnvironmentVars info) w)
                (resolveAliasedPath w (asString file)).

(** The three search-path variables. *)
Definition searchPathNames : list string :=
  ["TEXINPUTS"; "BIBINPUTS"; "BSTINPUTS"].

(** The R calls made, the log entries written and the synchronous runs
    done, in order. *)
Fixpoint r_calls (t : list Event) : list (string * string) :=
  match t with
  | [] => []
  | EvRCall fn arg :: rest => (fn, arg) :: r_calls rest
  | _ :: rest => r_calls rest
  end.

Fixpoint log_errors (t : list Event) : list string :=
  match t with
  | [] => []
  | EvLogError what :: rest => what :: log_errors rest
  | _ :: rest => log_errors rest
  end.

Fixpoint probes (t : list Event)
  : list (string * ShellArgs * string * ProcessOptions) :=
  match t with
  | [] => []
  | EvRunProgram exe args input opts :: rest =>
      (exe, args, input, opts) :: probes rest
  | _ :: rest => probes rest
  end.

(** The trace of a run of the entry point that reaches the launch, for
    the probe output [info]. *)
Definition launchTrace (w : World) (file : SEXP) (info : string)
  : list Event :=
  probeEvent w ::
  (if shellArgsFirst w
   then trace_of (texi2dviShellArgs info) w ++
        trace_of (texi2dviEnvironmentVars info) w
   else trace_of (texi2dviEnvironmentVars info) w ++
        trace_of (texi2dviShellArgs info) w) ++
  [ EvEnter "executeTexToPdf";
    EvSupervise (texi2dviExe w) (plannedArgs w info file)
      (plannedOptions w info file)
      {| onStdout := ConsoleOutput; onStderr := ConsoleError |} ] ++
  match superviseProgram w (texi2dviExe w) (plannedArgs w info file)
          (plannedOptions w info file) with
  | Some e => [EvConsoleError (summary e ++ Str.nl)]
  | None => []
  end.

(** The four ways through the entry point. *)
Inductive Run (w : World) (file : SEXP) : Prop :=
| RunNotFound :
    FilePath_empty (findProgram w "texi2dvi") = true ->
    trace_of (rs_texToPdf file) w =
      [EvConsoleError ("can't find texi2dvi" ++ Str.nl)] ->
    Run w file
| RunProbeError (error : Error) :
    FilePath_empty (findProgram w "texi2dvi") = false ->
    versionProbe w = Failed error ->
    trace_of (rs_texToPdf file) w =
      [probeEvent w; EvConsoleError (summary error ++ Str.nl)] ->
    Run w file
| RunProbeExit (result : ProcessResult) :
    FilePath_empty (findProgram w "texi2dvi") = false ->
    versionProbe w = Ok result ->
    exitStatus result <> EXIT_SUCCESS ->
    trace_of (rs_texToPdf file) w =
      [probeEvent w; EvConsoleError (stdErr result)] ->
    Run w file
| RunLaunch (result : ProcessResult) :
    FilePath_empty (findProgram w "texi2dvi") = false ->
    versionProbe w = Ok result ->
    exitStatus result = EXIT_SUCCESS ->
    trace_of (rs_texToPdf file) w = launchTrace w file (stdOut result) ->
    Run w file.

(* ===================================================================== *)
(** * Sample worlds *)
(* ===================================================================== *)

Module Sample.

(** Exactly the listed paths exist. *)
Definition only (paths : list string) (p : string) : bool :=
  existsb (String.eqb p) paths.

(** A Unix session: R's share directory is [/opt/R/share], no search-path
    variable is set, [texi2dvi] is the GNU one. *)
Definition unix : World :=
  {| platform := Posix;
     shellArgsFirst := true;
     environ := [("HOME", "/home/ann"); ("PATH", "/usr/bin:/bin")];
     fs_exists := only ["/opt/R/share"; "/opt/R/share/texmf"];
     r_home_share := Ok "/opt/R/share";
     texScriptsPath := mkFilePath "/usr/lib/rstudio/bin/tex";
     utf8ToSystem := fun s => s;
     resolveAliasedPath := mkFilePath;
     findProgram := fun _ => mkFilePath "/usr/bin/texi2dvi";
     runProgram := fun _ _ _ _ =>
       Ok (mkProcessResult 0 "texi2dvi (GNU Texinfo 4.13) 1.135" "");
     superviseProgram := fun _ _ _ => None |}.

(** A Windows session with MiKTeX; R's share directory is given with
    backslashes, and [TEXINPUTS] is set with backslashes too. *)
Definition windows : World :=
  {| platform := Windows;
     shellArgsFirst := true;
     environ := [("TEXINPUTS", "C:\my\tex"); ("BIBINPUTS", "C:\my\bib")];
     fs_exists := only ["C:\R\share"; "C:\R\share/texmf"];
     r_home_share := Ok "C:\R\share";
     texScriptsPath := mkFilePath "C:/RStudio/bin/tex";
     utf8ToSystem := fun s => s;
     resolveAliasedPath := mkFilePath;
     findProgram := fun _ => mkFilePath "C:/MiKTeX/bin/texi2dvi.exe";
     runProgram := fun _ _ _ _ =>
       Ok (mkProcessResult 0 "MiKTeX-texify 2.9" "");
     superviseProgram := fun _ _ _ => None |}.

(** The same world with another file system. *)
Definition with_fs (w : World) (fs : string -> bool) : World :=
  {| platform := platform w;
     shellArgsFirst := shellArgsFirst w;
     environ := environ w;
     fs_exists := fs;
     r_home_share := r_home_share w;
     texScriptsPath := texScriptsPath w;
     utf8ToSystem := utf8ToSystem w;
     resolveAliasedPath := resolveAliasedPath w;
     findProgram := findProgram w;
     runProgram := runProgram w;
     superviseProgram := superviseProgram w |}.


(** The same world with another answer of the version probe. *)
Definition with_probe (w : World) (r : Outcome ProcessResult) : World :=
  {| platform := platform w;
     shellArgsFirst := shellArgsFirst w;
     environ := environ w;
     fs_exists := fs_exists w;
     r_home_share := r_home_share w;
     texScriptsPath := texScriptsPath w;
     utf8ToSystem := utf8ToSystem w;
     resolveAliasedPath := resolveAliasedPath w;
     findProgram := findProgram w;
     runProgram := fun _ _ _ _ => r;
     superviseProgram := superviseProgram w |}.

(** The same world with another ambient environment. *)
Definition with_environ (w : World) (env : Options) : World :=
  {| platform := platform w;
     shellArgsFirst := shellArgsFirst w;
     environ := env;
     fs_exists := fs_exists w;
     r_home_share := r_home_share w;
     texScriptsPath := texScriptsPath w;
     utf8ToSystem := utf8ToSystem w;
     resolveAliasedPath := resolveAliasedPath w;
     findProgram := findProgram w;
     runProgram := runProgram w;
     superviseProgram := superviseProgram w |}.

(** The same world as compiled with the other order of evaluation. *)
Definition with_order (w : World) (argsFirst : bool) : World :=
  {| platform := platform w;
     shellArgsFirst := argsFirst;
     environ := environ w;
     fs_exists := fs_exists w;
     r_home_share := r_home_share w;
     texScriptsPath := texScriptsPath w;
     utf8ToSystem := utf8ToSystem w;
     resolveAliasedPath := resolveAliasedPath w;
     findProgram := findProgram w;
     runProgram := runProgram w;
     superviseProgram := superviseProgram w |}.

(** The same world where no program is found. *)
Definition without_programs (w : World) : World :=
  {| platform := platform w;
     shellArgsFirst := shellArgsFirst w;
     environ := environ w;
     fs_exists := fs_exists w;
     r_home_share := r_home_share w;
     texScriptsPath := texScriptsPath w;
     utf8ToSystem := utf8ToSystem w;
     resolveAliasedPath := resolveAliasedPath w;
     findProgram := fun _ => FilePath_default;
     runProgram := runProgram w;
     superviseProgram := superviseProgram w |}.

(** The same world where the launch of the compile fails. *)
Definition with_launch_error (w : World) (e : Error) : World :=
  {| platform := platform w;
     shellArgsFirst := shellArgsFirst w;
     environ := environ w;
     fs_exists := fs_exists w;
     r_home_share := r_home_share w;
     texScriptsPath := texScriptsPath w;
     utf8ToSystem := utf8ToSystem w;
     resolveAliasedPath := resolveAliasedPath w;
     findProgram := findProgram w;
     runProgram := runProgram w;
     superviseProgram := fun _ _ _ => Some e |}.

End Sample.

(** Running a computation: unfold the monad down to pairs. *)
Ltac eff_unfold :=
  unfold value_of, trace_of, getenv, path_exists, toSystem, LOG_ERROR,
    consoleWriteError, ask, emit;
  cbn [bind ret Monad_Eff eff_bind eff_ret].

(* ===================================================================== *)
(** * Facts about texts and environments *)
(* ===================================================================== *)

Section Texts.

Lemma append_assoc (s t u : string) :
  ((s ++ t) ++ u = s ++ (t ++ u))%string.
Proof.
  induction s as [|c s IH]; cbn; [reflexivity|].
  rewrite IH. reflexivity.
Qed.


(** After [replace_all s a b], with [b] another character than [a], no
    [a] is left. *)
Lemma count_replace_all (s : string) (a b : ascii) :
  a <> b -> Str.count a (Str.replace_all s a b) = 0.
Proof.
  intros Hab.
  induction s as [|d s IH]; cbn; [reflexivity|].
  rewrite IH.
  destruct (Ascii.eqb_spec d a) as [->|Hd].
  - destruct (Ascii.eqb_spec b a); [congruence|reflexivity].
  - destruct (Ascii.eqb_spec d a); [congruence|reflexivity].
Qed.

Lemma backslash_not_slash : Str.backslash <> Str.slash.
Proof. discriminate. Qed.

(** The value [addToPath] builds twice over is the delimiter-joined
    sequence of its three segments. *)
Lemma addToPath_twice (p : Platform) (value dir : string) :
  Env.addToPath p (Env.addToPath p value dir) "" =
  String.concat (Env.pathSeparator p) [value; dir; ""].
Proof.
  unfold Env.addToPath. cbn.
  rewrite !append_assoc. reflexivity.
Qed.

End Texts.

Section Environments.

Lemma lookup_setenv_same (env : Options) (name value : string) :
  Env.lookup name (Env.setenv env name value) = Some value.
Proof.
  induction env as [|[n v] env IH]; cbn.
  - rewrite String.eqb_refl. reflexivity.
  - destruct (String.eqb n name) eqn:E; cbn; rewrite E; auto.
Qed.

Lemma lookup_setenv_other (env : Options) (name other value : string) :
  name <> other ->
  Env.lookup other (Env.setenv env name value) = Env.lookup other env.
Proof.
  intros Hne.
  induction env as [|[n v] env IH]; cbn.
  - destruct (String.eqb_spec name other); [contradiction|reflexivity].
  - destruct (String.eqb_spec n name) as [->|Hn]; cbn.
    + destruct (String.eqb_spec name other); [contradiction|reflexivity].
    + destruct (String.eqb n other); [reflexivity|exact IH].
Qed.

(** The loop of [executeTexToPdf] over the overlay: a name the overlay
    sets ends with the overlay's (last) value, any other name keeps the
    value it had. *)
Lemma lookup_merge (vars env : Options) (name : string) :
  Env.lookup name
    (fold_left (fun env var => Env.setenv env (fst var) (snd var)) vars env) =
  match Env.lookup_last name vars with
  | Some v => Some v
  | None => Env.lookup name env
  end.
Proof.
  revert env.
  induction vars as [|[n v] vars IH]; intros env; cbn; [reflexivity|].
  rewrite IH.
  destruct (Env.lookup_last name vars); [reflexivity|].
  destruct (String.eqb_spec n name) as [->|Hn].
  - apply lookup_setenv_same.
  - apply lookup_setenv_other. exact Hn.
Qed.

Lemma lookup_last_app (name : string) (xs ys : Options) :
  Env.lookup_last name (xs ++ ys) =
  match Env.lookup_last name ys with
  | Some v => Some v
  | None => Env.lookup_last name xs
  end.
Proof.
  induction xs as [|[n v] xs IH]; cbn.
  - destruct (Env.lookup_last name ys); reflexivity.
  - rewrite IH. destruct (Env.lookup_last name ys); reflexivity.
Qed.

End Environments.

(* ===================================================================== *)
(** * Running the engine *)
(* ===================================================================== *)

Section Root.

Variable w : World.

Lemma childPath_not_empty (p : FilePath) (rel : string) :
  FilePath_empty (childPath p rel) = false.
Proof.
  destruct p as [s]. unfold childPath, complete, FilePath_empty. cbn.
  induction s as [|c s IH]; reflexivity.
Qed.

(** [rTexmfPaths] yields the three directories under the root when the
    root is there and the empty structure when it is not; it writes
    nothing to the console. *)
Lemma rTexmfPaths_value :
  value_of rTexmfPaths w =
  match texmfRoot w with
  | Some root => mkRTexmfPaths (childPath root "tex/latex")
                               (childPath root "bibtex/bib")
                               (childPath root "bibtex/bst")
  | None => noRTexmfPaths
  end.
Proof.
  unfold rTexmfPaths, texmfRoot. eff_unfold.
  destruct (r_home_share w) as [e|share]; cbn; [reflexivity|].
  destruct (fs_exists w share); cbn; [|reflexivity].
  destruct (fs_exists w _); reflexivity.
Qed.

Lemma rTexmfPaths_trace :
  exists logged,
    trace_of rTexmfPaths w = EvRCall "R.home" "share" :: logged /\
    (forall e, In e logged -> exists what, e = EvLogError what) /\
    (texmfRoot w <> None -> logged = []).
Proof.
  unfold rTexmfPaths, texmfRoot. eff_unfold.
  destruct (r_home_share w) as [e|share]; cbn.
  - eexists; split; [reflexivity|]. split; [|congruence].
    intros ev [<-|[]]. eauto.
  - destruct (fs_exists w share); cbn.
    + destruct (fs_exists w _); cbn.
      * exists []. split; [reflexivity|]. split; [intros ? []|reflexivity].
      * eexists; split; [reflexivity|]. split; [|congruence].
        intros ev [<-|[]]. eauto.
    + eexists; split; [reflexivity|]. split; [|congruence].
      intros ev [<-|[]]. eauto.
Qed.

Lemma rTexmfPaths_empty_iff :
  RTexmfPaths_empty (value_of rTexmfPaths w) =
  match texmfRoot w with Some _ => false | None => true end.
Proof.
  rewrite rTexmfPaths_value.
  destruct (texmfRoot w); [|reflexivity].
  apply childPath_not_empty.
Qed.

End Root.

Section Running.

Context {A B : Type}.
Variable w : World.

Lemma run_pair (m : Eff A) : m w = (value_of m w, trace_of m w).
Proof. unfold value_of, trace_of. destruct (m w); reflexivity. Qed.

Lemma value_of_bind (m : Eff A) (k : A -> Eff B) :
  value_of (eff_bind m k) w = value_of (k (value_of m w)) w.
Proof.
  unfold value_of, eff_bind.
  destruct (m w) as [a t1]; cbn. destruct (k a w); reflexivity.
Qed.

Lemma trace_of_bind (m : Eff A) (k : A -> Eff B) :
  trace_of (eff_bind m k) w =
  trace_of m w ++ trace_of (k (value_of m w)) w.
Proof.
  unfold trace_of, value_of, eff_bind.
  destruct (m w) as [a t1]; cbn. destruct (k a w); reflexivity.
Qed.

Lemma value_of_ret (a : A) : value_of (eff_ret a) w = a.
Proof. reflexivity. Qed.

Lemma trace_of_ret (a : A) : trace_of (eff_ret a) w = [].
Proof. reflexivity. Qed.

Lemma value_of_ask (f : World -> A) : value_of (ask f) w = f w.
Proof. reflexivity. Qed.

Lemma trace_of_ask (f : World -> A) : trace_of (ask f) w = [].
Proof. reflexivity. Qed.

Lemma trace_of_emit (e : Event) : trace_of (emit e) w = [e].
Proof. reflexivity. Qed.

End Running.

Create Rewrite HintDb eff.

#[local] Hint Rewrite @value_of_bind @trace_of_bind @value_of_ret
  @trace_of_ret @value_of_ask @trace_of_ask trace_of_emit : eff.

(** Split a goal on a run into its value and its trace, and push both
    through the binds. *)
Ltac eff_split :=
  rewrite run_pair; f_equal;
  cbn [bind ret Monad_Eff]; autorewrite with eff.

Section Composer.

Variable w : World.

(** [inputsEnvVar] has no effect, and its value is the delimiter-joined
    sequence of the ambient value (["."] when empty; without backslashes
    under the flag on Windows), the directory, and the empty segment. *)
Lemma inputsEnvVar_run (name : string) (extraPath : FilePath) (flag : bool) :
  inputsEnvVar name extraPath flag w =
  ((name,
    String.concat (Env.pathSeparator (platform w))
      [ (let value := ambientOrDot w name in
         if is_windows (platform w) && flag
         then Str.replace_all value Str.backslash Str.slash
         else value);
        utf8ToSystem w (absolutePath extraPath);
        "" ]),
   []).
Proof.
  unfold inputsEnvVar, ambientOrDot. eff_unfold. cbn [app].
  rewrite addToPath_twice. reflexivity.
Qed.

Lemma inputsEnvVar_trace (name : string) (extraPath : FilePath) (flag : bool) :
  trace_of (inputsEnvVar name extraPath flag) w = [].
Proof. unfold trace_of. rewrite inputsEnvVar_run. reflexivity. Qed.

Lemma pdfLatexEnvVar_value : value_of pdfLatexEnvVar w = pdfLatexOption w.
Proof. reflexivity. Qed.

Lemma pdfLatexEnvVar_trace : trace_of pdfLatexEnvVar w = [].
Proof. reflexivity. Qed.

(** The composer yields three variables under the root, in the order
    TEXINPUTS, BIBINPUTS, BSTINPUTS, or none. *)
Lemma inputsEnvironmentVars_value :
  value_of inputsEnvironmentVars w =
  match texmfRoot w with
  | Some root =>
      [ value_of (inputsEnvVar "TEXINPUTS" (childPath root "tex/latex") true) w;
        value_of (inputsEnvVar "BIBINPUTS" (childPath root "bibtex/bib") false) w;
        value_of (inputsEnvVar "BSTINPUTS" (childPath root "bibtex/bst") false) w ]
  | None => []
  end.
Proof.
  unfold inputsEnvironmentVars.
  cbn [bind ret Monad_Eff]; autorewrite with eff.
  rewrite rTexmfPaths_empty_iff, rTexmfPaths_value.
  destruct (texmfRoot w) as [root|]; cbn [negb];
    autorewrite with eff; reflexivity.
Qed.

(** The only effects of the composer are those of [rTexmfPaths]. *)
Lemma inputsEnvironmentVars_trace :
  trace_of inputsEnvironmentVars w = trace_of rTexmfPaths w.
Proof.
  unfold inputsEnvironmentVars.
  cbn [bind ret Monad_Eff]; autorewrite with eff.
  rewrite rTexmfPaths_empty_iff.
  destruct (texmfRoot w) as [root|]; cbn [negb];
    autorewrite with eff; rewrite ?inputsEnvVar_trace; apply app_nil_r.
Qed.

End Composer.

#[local] Hint Rewrite inputsEnvVar_trace pdfLatexEnvVar_value
  pdfLatexEnvVar_trace inputsEnvironmentVars_trace : eff.

Section Stages.

Variable w : World.

(** The overlay is the composer's variables, then the two fixed entries
    off Windows, then the PDFLATEX entry; the text of the probe is not
    looked at. *)
Lemma texi2dviEnvironmentVars_run (info : string) :
  texi2dviEnvironmentVars info w =
  (value_of inputsEnvironmentVars w ++
   (if is_windows (platform w) then []
    else [("TEXINDY", "false"); ("LC_COLLATE", "C")]) ++
   [pdfLatexOption w],
   EvEnter "texi2dviEnvironmentVars" :: trace_of rTexmfPaths w).
Proof.
  unfold texi2dviEnvironmentVars.
  eff_split.
  - destruct (is_windows (platform w)); cbn [app];
      rewrite <- ?app_assoc; reflexivity.
  - cbn [app]. rewrite !app_nil_r. reflexivity.
Qed.

Lemma texi2dviShellArgs_run (info : string) :
  texi2dviShellArgs info w =
  (["--pdf"; "--quiet"] ++
   (if is_windows (platform w) && Str.contains "MiKTeX" info
    then match texmfRoot w with
         | Some root => injection w root
         | None => []
         end
    else []),
   EvEnter "texi2dviShellArgs" ::
   (if is_windows (platform w) && Str.contains "MiKTeX" info
    then trace_of rTexmfPaths w else [])).
Proof.
  unfold texi2dviShellArgs.
  eff_split;
    destruct (is_windows (platform w) && Str.contains "MiKTeX" info);
    autorewrite with eff; try reflexivity;
    rewrite rTexmfPaths_empty_iff, rTexmfPaths_value;
    destruct (texmfRoot w) as [root|]; cbn [negb];
    autorewrite with eff; try reflexivity.
  - cbn [app]. rewrite !app_nil_r. reflexivity.
  - cbn [app]. rewrite !app_nil_r. reflexivity.
Qed.

End Stages.

Section Orchestrator.

Variable w : World.
Variable file : SEXP.

Lemma texi2dviEnvironmentVars_trace (info : string) :
  trace_of (texi2dviEnvironmentVars info) w =
  EvEnter "texi2dviEnvironmentVars" :: trace_of rTexmfPaths w.
Proof. unfold trace_of at 1. rewrite texi2dviEnvironmentVars_run. reflexivity. Qed.

Lemma texi2dviShellArgs_trace (info : string) :
  trace_of (texi2dviShellArgs info) w =
  EvEnter "texi2dviShellArgs" ::
  (if is_windows (platform w) && Str.contains "MiKTeX" info
   then trace_of rTexmfPaths w else []).
Proof. unfold trace_of at 1. rewrite texi2dviShellArgs_run. reflexivity. Qed.

Lemma executeTexToPdf_value (tool : FilePath) (envVars : Options)
    (args : ShellArgs) (texFilePath : FilePath) :
  value_of (executeTexToPdf tool envVars args texFilePath) w =
  superviseProgram w (utf8ToSystem w (absolutePath tool))
    (args ++ [filename texFilePath]) (launchOptions w envVars texFilePath).
Proof. reflexivity. Qed.

Lemma executeTexToPdf_trace (tool : FilePath) (envVars : Options)
    (args : ShellArgs) (texFilePath : FilePath) :
  trace_of (executeTexToPdf tool envVars args texFilePath) w =
  [ EvEnter "executeTexToPdf";
    EvSupervise (utf8ToSystem w (absolutePath tool))
      (args ++ [filename texFilePath]) (launchOptions w envVars texFilePath)
      {| onStdout := ConsoleOutput; onStderr := ConsoleError |} ].
Proof. reflexivity. Qed.

(** No program: one line on the console, nothing else. *)
Lemma rs_texToPdf_not_found :
  FilePath_empty (findProgram w "texi2dvi") = true ->
  rs_texToPdf file w =
  (R_NilValue, [EvConsoleError ("can't find texi2dvi" ++ Str.nl)]).
Proof.
  intros Hfind. unfold rs_texToPdf.
  eff_split; rewrite Hfind; autorewrite with eff; reflexivity.
Qed.

(** The probe could not be run: the probe, then one line on the console. *)
Lemma rs_texToPdf_probe_error (error : Error) :
  FilePath_empty (findProgram w "texi2dvi") = false ->
  versionProbe w = Failed error ->
  rs_texToPdf file w =
  (R_NilValue, [probeEvent w; EvConsoleError (summary error ++ Str.nl)]).
Proof.
  intros Hfind Hprobe. unfold rs_texToPdf.
  unfold versionProbe, texi2dviExe in Hprobe.
  eff_split; rewrite Hfind; autorewrite with eff; unfold toSystem;
    autorewrite with eff; rewrite Hprobe; autorewrite with eff; reflexivity.
Qed.

(** The probe ran and exited with another status than [EXIT_SUCCESS]: the
    probe, then what it wrote to its standard error on the console. *)
Lemma rs_texToPdf_probe_exit (result : ProcessResult) :
  FilePath_empty (findProgram w "texi2dvi") = false ->
  versionProbe w = Ok result ->
  exitStatus result <> EXIT_SUCCESS ->
  rs_texToPdf file w =
  (R_NilValue, [probeEvent w; EvConsoleError (stdErr result)]).
Proof.
  intros Hfind Hprobe Hexit. unfold rs_texToPdf.
  unfold versionProbe, texi2dviExe in Hprobe.
  apply Z.eqb_neq in Hexit.
  eff_split; rewrite Hfind; autorewrite with eff; unfold toSystem;
    autorewrite with eff; rewrite Hprobe; autorewrite with eff;
    rewrite Hexit; cbn [negb]; autorewrite with eff; reflexivity.
Qed.

Lemma evaluateArguments_value (info : string) :
  value_of (evaluateArguments info) w =
  (value_of (texi2dviEnvironmentVars info) w,
   value_of (texi2dviShellArgs info) w).
Proof.
  unfold evaluateArguments.
  cbn [bind ret Monad_Eff]; autorewrite with eff.
  destruct (shellArgsFirst w); autorewrite with eff; reflexivity.
Qed.

Lemma evaluateArguments_trace (info : string) :
  trace_of (evaluateArguments info) w =
  if shellArgsFirst w
  then trace_of (texi2dviShellArgs info) w ++
       trace_of (texi2dviEnvironmentVars info) w
  else trace_of (texi2dviEnvironmentVars info) w ++
       trace_of (texi2dviShellArgs info) w.
Proof.
  unfold evaluateArguments.
  cbn [bind ret Monad_Eff]; autorewrite with eff.
  destruct (shellArgsFirst w); autorewrite with eff;
    rewrite app_nil_r; reflexivity.
Qed.

(** The probe succeeded: the two arguments are evaluated, the compile is
    launched once, and the console gets the summary of a launch error. *)
Lemma rs_texToPdf_launch (result : ProcessResult) :
  FilePath_empty (findProgram w "texi2dvi") = false ->
  versionProbe w = Ok result ->
  exitStatus result = EXIT_SUCCESS ->
  rs_texToPdf file w = (R_NilValue, launchTrace w file (stdOut result)).
Proof.
  intros Hfind Hprobe Hexit.
  unfold rs_texToPdf.
  unfold versionProbe, texi2dviExe in Hprobe.
  apply Z.eqb_eq in Hexit.
  eff_split; rewrite Hfind; autorewrite with eff; unfold toSystem;
    autorewrite with eff; rewrite Hprobe; autorewrite with eff;
    rewrite Hexit; cbn [negb]; autorewrite with eff.
  - reflexivity.
  - rewrite executeTexToPdf_value, executeTexToPdf_trace.
    rewrite evaluateArguments_value, evaluateArguments_trace. cbn [fst snd].
    unfold launchTrace.
    fold (texi2dviExe w). fold (probeEvent w).
    fold (plannedArgs w (stdOut result) file).
    fold (plannedOptions w (stdOut result) file).
    destruct (superviseProgram w (texi2dviExe w) _ _);
      autorewrite with eff; unfold consoleWriteError;
      autorewrite with eff; cbn [app]; rewrite ?app_nil_r; reflexivity.
Qed.

End Orchestrator.

(* ===================================================================== *)
(** * Projections of a trace *)
(* ===================================================================== *)

Lemma console_errors_app (t u : list Event) :
  console_errors (t ++ u) = console_errors t ++ console_errors u.
Proof.
  induction t as [|e t IH]; [reflexivity|].
  destruct e; cbn; rewrite IH; reflexivity.
Qed.

Lemma launches_app (t u : list Event) :
  launches (t ++ u) = launches t ++ launches u.
Proof.
  induction t as [|e t IH]; [reflexivity|].
  destruct e; cbn; rewrite IH; reflexivity.
Qed.

Lemma r_calls_app (t u : list Event) :
  r_calls (t ++ u) = r_calls t ++ r_calls u.
Proof.
  induction t as [|e t IH]; [reflexivity|].
  destruct e; cbn; rewrite IH; reflexivity.
Qed.

Lemma log_errors_app (t u : list Event) :
  log_errors (t ++ u) = log_errors t ++ log_errors u.
Proof.
  induction t as [|e t IH]; [reflexivity|].
  destruct e; cbn; rewrite IH; reflexivity.
Qed.

Lemma probes_app (t u : list Event) :
  probes (t ++ u) = probes t ++ probes u.
Proof.
  induction t as [|e t IH]; [reflexivity|].
  destruct e; cbn; rewrite IH; reflexivity.
Qed.

Lemma stages_app (t u : list Event) :
  stages (t ++ u) = stages t ++ stages u.
Proof.
  induction t as [|e t IH]; [reflexivity|].
  destruct e; cbn; rewrite IH; reflexivity.
Qed.

Lemma rTexmfPaths_no_launch (w : World) :
  launches (trace_of rTexmfPaths w) = [].
Proof.
  destruct (rTexmfPaths_trace w) as (logged & -> & Hlog & _).
  cbn [launches].
  induction logged as [|e logged IH]; [reflexivity|].
  destruct (Hlog e (or_introl eq_refl)) as [what ->]. cbn [launches].
  apply IH. intros e' He'. apply Hlog. right. exact He'.
Qed.

Lemma rTexmfPaths_no_console (w : World) :
  console_errors (trace_of rTexmfPaths w) = [].
Proof.
  destruct (rTexmfPaths_trace w) as (logged & -> & Hlog & _).
  cbn [console_errors].
  induction logged as [|e logged IH]; [reflexivity|].
  destruct (Hlog e (or_introl eq_refl)) as [what ->]. cbn [console_errors].
  apply IH. intros e' He'. apply Hlog. right. exact He'.
Qed.

Lemma rTexmfPaths_r_calls (w : World) :
  r_calls (trace_of rTexmfPaths w) = [("R.home", "share")].
Proof.
  unfold rTexmfPaths. eff_unfold.
  destruct (r_home_share w) as [e|share]; cbn; [reflexivity|].
  destruct (fs_exists w share); cbn; [|reflexivity].
  destruct (fs_exists w _); reflexivity.
Qed.

Lemma rTexmfPaths_no_probe (w : World) :
  probes (trace_of rTexmfPaths w) = [].
Proof.
  unfold rTexmfPaths. eff_unfold.
  destruct (r_home_share w) as [e|share]; cbn; [reflexivity|].
  destruct (fs_exists w share); cbn; [|reflexivity].
  destruct (fs_exists w _); reflexivity.
Qed.

Lemma rTexmfPaths_no_stage (w : World) :
  stages (trace_of rTexmfPaths w) = [].
Proof.
  unfold rTexmfPaths. eff_unfold.
  destruct (r_home_share w) as [e|share]; cbn; [reflexivity|].
  destruct (fs_exists w share); cbn; [|reflexivity].
  destruct (fs_exists w _); reflexivity.
Qed.

Lemma rTexmfPaths_log_count (w : World) :
  length (log_errors (trace_of rTexmfPaths w)) =
  match texmfRoot w with Some _ => 0 | None => 1 end.
Proof.
  unfold rTexmfPaths, texmfRoot. eff_unfold.
  destruct (r_home_share w) as [e|share]; cbn; [reflexivity|].
  destruct (fs_exists w share); cbn; [|reflexivity].
  destruct (fs_exists w _); reflexivity.
Qed.

(** Project a trace that is built with [::] and [++]. *)
Ltac project_trace :=
  repeat (cbn [launches probes stages r_calls log_errors console_errors
               app length];
          rewrite ?launches_app, ?probes_app, ?stages_app, ?r_calls_app,
            ?log_errors_app, ?console_errors_app, ?length_app).

Section LaunchTrace.

Variable w : World.
Variable file : SEXP.
Variable info : string.

(** Unfold the trace of a launching run in each order of evaluation, each
    outcome of the launch and each way through [texi2dviShellArgs]. *)
Ltac launch_cases :=
  unfold launchTrace, probeEvent;
  rewrite texi2dviEnvironmentVars_trace, texi2dviShellArgs_trace;
  destruct (shellArgsFirst w);
  destruct (superviseProgram w _ _ _);
  destruct (_ && _); project_trace.

Lemma launchTrace_launches :
  launches (launchTrace w file info) =
  [(texi2dviExe w, plannedArgs w info file, plannedOptions w info file)].
Proof. launch_cases; rewrite ?rTexmfPaths_no_launch; reflexivity. Qed.

Lemma launchTrace_console :
  console_errors (launchTrace w file info) =
  match superviseProgram w (texi2dviExe w) (plannedArgs w info file)
          (plannedOptions w info file) with
  | Some e => [(summary e ++ Str.nl)%string]
  | None => []
  end.
Proof.
  unfold launchTrace, probeEvent.
  rewrite texi2dviEnvironmentVars_trace, texi2dviShellArgs_trace.
  destruct (shellArgsFirst w);
    destruct (superviseProgram w _ _ _);
    destruct (_ && _); project_trace;
    rewrite ?rTexmfPaths_no_console; reflexivity.
Qed.

Lemma launchTrace_probes :
  probes (launchTrace w file info) =
  [(texi2dviExe w, ["--version"], "", defaultProcessOptions)].
Proof. launch_cases; rewrite ?rTexmfPaths_no_probe; reflexivity. Qed.

(** The stages of a launching run: the two arguments in the order of the
    compiled program, then the launch. *)
Lemma launchTrace_stages :
  stages (launchTrace w file info) =
  if shellArgsFirst w
  then ["texi2dviShellArgs"; "texi2dviEnvironmentVars"; "executeTexToPdf"]
  else ["texi2dviEnvironmentVars"; "texi2dviShellArgs"; "executeTexToPdf"].
Proof. launch_cases; rewrite ?rTexmfPaths_no_stage; reflexivity. Qed.

Lemma launchTrace_r_calls :
  r_calls (launchTrace w file info) =
  repeat ("R.home", "share")
    (if is_windows (platform w) && Str.contains "MiKTeX" info then 2 else 1).
Proof. launch_cases; rewrite ?rTexmfPaths_r_calls; reflexivity. Qed.

Lemma launchTrace_log_count :
  length (log_errors (launchTrace w file info)) =
  match texmfRoot w with
  | Some _ => 0
  | None =>
      if is_windows (platform w) && Str.contains "MiKTeX" info then 2 else 1
  end.
Proof.
  launch_cases; rewrite ?rTexmfPaths_log_count;
    destruct (texmfRoot w); reflexivity.
Qed.

(** The launch comes after the probe and after the evaluation of both
    arguments, and only a console write can follow it. *)
Lemma launchTrace_order :
  exists before after : list Event,
    launchTrace w file info =
      before ++
      EvSupervise (texi2dviExe w) (plannedArgs w info file)
        (plannedOptions w info file)
        {| onStdout := ConsoleOutput; onStderr := ConsoleError |} :: after /\
    hd_error before = Some (probeEvent w) /\
    probes before = [(texi2dviExe w, ["--version"], "", defaultProcessOptions)] /\
    stages before =
      (if shellArgsFirst w
       then ["texi2dviShellArgs"; "texi2dviEnvironmentVars"; "executeTexToPdf"]
       else ["texi2dviEnvironmentVars"; "texi2dviShellArgs"; "executeTexToPdf"])
    /\
    launches before = [] /\
    probes after = [] /\ stages after = [] /\ r_calls after = [].
Proof.
  exists (probeEvent w ::
          (if shellArgsFirst w
           then trace_of (texi2dviShellArgs info) w ++
                trace_of (texi2dviEnvironmentVars info) w
           else trace_of (texi2dviEnvironmentVars info) w ++
                trace_of (texi2dviShellArgs info) w) ++
          [EvEnter "executeTexToPdf"]).
  exists (match superviseProgram w (texi2dviExe w) (plannedArgs w info file)
                  (plannedOptions w info file) with
          | Some e => [EvConsoleError (summary e ++ Str.nl)]
          | None => []
          end).
  split.
  - unfold launchTrace. cbn [app]. f_equal.
    rewrite <- !app_assoc. reflexivity.
  - split; [reflexivity|].
    unfold probeEvent.
    rewrite texi2dviEnvironmentVars_trace, texi2dviShellArgs_trace.
    destruct (shellArgsFirst w);
      destruct (superviseProgram w _ _ _);
      destruct (_ && _); project_trace;
      rewrite ?rTexmfPaths_no_probe, ?rTexmfPaths_no_stage,
        ?rTexmfPaths_no_launch;
      repeat split.
Qed.

End LaunchTrace.

Lemma rs_texToPdf_run (w : World) (file : SEXP) : Run w file.
Proof.
  destruct (FilePath_empty (findProgram w "texi2dvi")) eqn:Hfind.
  - apply RunNotFound; [exact Hfind|].
    unfold trace_of. rewrite (rs_texToPdf_not_found w file Hfind). reflexivity.
  - destruct (versionProbe w) as [error|result] eqn:Hprobe.
    + apply (RunProbeError w file error Hfind Hprobe).
      unfold trace_of.
      rewrite (rs_texToPdf_probe_error w file error Hfind Hprobe). reflexivity.
    + destruct (Z.eq_dec (exitStatus result) EXIT_SUCCESS) as [Hexit|Hexit].
      * apply (RunLaunch w file result Hfind Hprobe Hexit).
        unfold trace_of.
        rewrite (rs_texToPdf_launch w file result Hfind Hprobe Hexit).
        reflexivity.
      * apply (RunProbeExit w file result Hfind Hprobe Hexit).
        unfold trace_of.
        rewrite (rs_texToPdf_probe_exit w file result Hfind Hprobe Hexit).
        reflexivity.
Qed.


(* ===================================================================== *)
(** * The model on the sample worlds *)
(* ===================================================================== *)

Example marker_found : Str.contains "MiKTeX" "MiKTeX-texify 2.9" = true.
Proof. reflexivity. Qed.

Example marker_absent :
  Str.contains "MiKTeX" "texi2dvi (GNU Texinfo 4.13) 1.135" = false.
Proof. reflexivity. Qed.

Example file_of_path :
  filename (mkFilePath "/home/ann/doc/paper.tex") = "paper.tex" /\
  parent (mkFilePath "/home/ann/doc/paper.tex") = mkFilePath "/home/ann/doc".
Proof. split; reflexivity. Qed.

(** A whole run on Unix, as compiled to evaluate [texi2dviShellArgs]
    first: the probe, the three stages with the one R call of the
    composer, and the launch in the merged environment. *)
Example unix_run :
  rs_texToPdf (R_String "/home/ann/doc/paper.tex") Sample.unix =
  (R_NilValue,
   [ probeEvent Sample.unix;
     EvEnter "texi2dviShellArgs";
     EvEnter "texi2dviEnvironmentVars";
     EvRCall "R.home" "share";
     EvEnter "executeTexToPdf";
     EvSupervise "/usr/bin/texi2dvi" ["--pdf"; "--quiet"; "paper.tex"]
       {| terminateChildren := true;
          environment :=
            Some [ ("HOME", "/home/ann"); ("PATH", "/usr/bin:/bin");
                   ("TEXINPUTS", ".:/opt/R/share/texmf/tex/latex:");
                   ("BIBINPUTS", ".:/opt/R/share/texmf/bibtex/bib:");
                   ("BSTINPUTS", ".:/opt/R/share/texmf/bibtex/bst:");
                   ("TEXINDY", "false"); ("LC_COLLATE", "C");
                   ("PDFLATEX",
                    "/usr/lib/rstudio/bin/tex/rstudio-pdflatex.sh") ];
          workingDir := mkFilePath "/home/ann/doc" |}
       {| onStdout := ConsoleOutput; onStderr := ConsoleError |} ]).
Proof. reflexivity. Qed.

(** On Windows with MiKTeX the argument list carries the two injections;
    the two arguments are evaluated in the order of the compiled program,
    and the launch is the same in both. *)
Example windows_run :
  value_of (texi2dviShellArgs "MiKTeX-texify 2.9") Sample.windows =
    [ "--pdf"; "--quiet"; "-I"; "C:/R/share/texmf/tex/latex";
      "-I"; "C:/R/share/texmf/bibtex/bst" ] /\
  stages (trace_of (rs_texToPdf (R_String "C:/doc/paper.tex")) Sample.windows)
    = ["texi2dviShellArgs"; "texi2dviEnvironmentVars"; "executeTexToPdf"] /\
  stages (trace_of (rs_texToPdf (R_String "C:/doc/paper.tex"))
                   (Sample.with_order Sample.windows false))
    = ["texi2dviEnvironmentVars"; "texi2dviShellArgs"; "executeTexToPdf"] /\
  launches (trace_of (rs_texToPdf (R_String "C:/doc/paper.tex"))
                     (Sample.with_order Sample.windows false))
    = launches (trace_of (rs_texToPdf (R_String "C:/doc/paper.tex"))
                         Sample.windows).
Proof. repeat split. Qed.

(* ===================================================================== *)
(** * Properties of the environment composition *)
(* ===================================================================== *)

(** C1.  Whenever the toolchain root exists, the composer yields TEXINPUTS,
    BIBINPUTS and BSTINPUTS in this order, and each variable whose ambient
    value is empty gets the delimiter-joined sequence of ["."], its
    directory under the root (an absolute path, in the system encoding)
    and the empty segment.  In the scenario of an unset TEXINPUTS, the
    root [/opt/R/share/texmf] and a platform other than Windows, whose
    encoding leaves the directory's name as it is, TEXINPUTS is the
    colon-joined sequence of ["."], [/opt/R/share/texmf/tex/latex] and the
    empty segment. *)
Theorem C1_empty_ambient_value :
  (forall (w : World) (share : string),
      r_home_share w = Ok share ->
      fs_exists w share = true ->
      fs_exists w (absolutePath (complete (mkFilePath share) "texmf")) = true ->
      let root := complete (mkFilePath share) "texmf" in
      let sep := Env.pathSeparator (platform w) in
      let dir rel := utf8ToSystem w (absolutePath (childPath root rel)) in
      exists vtex vbib vbst : string,
        value_of inputsEnvironmentVars w =
          [("TEXINPUTS", vtex); ("BIBINPUTS", vbib); ("BSTINPUTS", vbst)] /\
        (value_of (getenv "TEXINPUTS") w = "" ->
         vtex = String.concat sep ["."; dir "tex/latex"; ""]) /\
        (value_of (getenv "BIBINPUTS") w = "" ->
         vbib = String.concat sep ["."; dir "bibtex/bib"; ""]) /\
        (value_of (getenv "BSTINPUTS") w = "" ->
         vbst = String.concat sep ["."; dir "bibtex/bst"; ""])) /\
  (forall w : World,
      platform w = Posix ->
      Env.lookup "TEXINPUTS" (environ w) = None ->
      r_home_share w = Ok "/opt/R/share" ->
      fs_exists w "/opt/R/share" = true ->
      fs_exists w "/opt/R/share/texmf" = true ->
      utf8ToSystem w "/opt/R/share/texmf/tex/latex" =
        "/opt/R/share/texmf/tex/latex" ->
      nth_error (value_of inputsEnvironmentVars w) 0 =
        Some ("TEXINPUTS",
              String.concat ":" ["."; "/opt/R/share/texmf/tex/latex"; ""]) /\
      String.concat ":" ["."; "/opt/R/share/texmf/tex/latex"; ""] =
        ".:/opt/R/share/texmf/tex/latex:").
Proof.
  split.
  - intros w share HR Hshare Htexmf root sep dir.
    assert (Hroot : texmfRoot w = Some root).
    { unfold texmfRoot. rewrite HR, Hshare, Htexmf. reflexivity. }
    rewrite inputsEnvironmentVars_value, Hroot.
    unfold value_of at 1 2 3. rewrite !inputsEnvVar_run. cbn [fst].
    do 3 eexists. split; [reflexivity|].
    unfold ambientOrDot.
    repeat split; intros ->; cbn [Str.empty];
      destruct (is_windows (platform w)); reflexivity.
  - intros w Hpf Hunset HR Hshare Htexmf Hsys.
    split; [|reflexivity].
    assert (Hroot : texmfRoot w = Some (mkFilePath "/opt/R/share/texmf")).
    { unfold texmfRoot. rewrite HR. cbn. rewrite Hshare, Htexmf. reflexivity. }
    rewrite inputsEnvironmentVars_value, Hroot. cbn [nth_error].
    unfold value_of. rewrite inputsEnvVar_run. cbn [fst].
    unfold ambientOrDot, value_of, getenv, ask. cbn [fst].
    rewrite Hunset, Hpf. cbn [Str.empty is_windows andb Env.pathSeparator].
    cbn [childPath complete absolutePath append].
    rewrite Hsys. reflexivity.
Qed.

Lemma C1_empty_ambient_value_witness :
  value_of inputsEnvironmentVars Sample.unix =
    [ ("TEXINPUTS", ".:/opt/R/share/texmf/tex/latex:");
      ("BIBINPUTS", ".:/opt/R/share/texmf/bibtex/bib:");
      ("BSTINPUTS", ".:/opt/R/share/texmf/bibtex/bst:") ] /\
  nth_error (value_of inputsEnvironmentVars Sample.unix) 0 =
    Some ("TEXINPUTS", ".:/opt/R/share/texmf/tex/latex:").
Proof.
  destruct C1_empty_ambient_value as [general scenario].
  split.
  - destruct (general Sample.unix "/opt/R/share" eq_refl eq_refl eq_refl)
      as (vtex & vbib & vbst & Hvars & Htex & Hbib & Hbst).
    rewrite Hvars, (Htex eq_refl), (Hbib eq_refl), (Hbst eq_refl).
    reflexivity.
  - exact (proj1 (scenario Sample.unix eq_refl eq_refl eq_refl eq_refl
                           eq_refl eq_refl)).
Defined.

Section MissingRoot.

Variable w : World.

(** No texmf directory under the share directory R reports. *)
Hypothesis no_texmf :
  forall share : string,
    r_home_share w = Ok share ->
    fs_exists w (absolutePath (complete (mkFilePath share) "texmf")) = false.

Lemma texmfRoot_missing : texmfRoot w = None.
Proof.
  unfold texmfRoot.
  destruct (r_home_share w) as [e|share] eqn:HR; [reflexivity|].
  rewrite (no_texmf share eq_refl), andb_false_r. reflexivity.
Qed.

(** The overlay built without the root names none of the three search-path
    variables. *)
Lemma overlay_without_root (info name : string) :
  In name searchPathNames ->
  Env.lookup_last name (value_of (texi2dviEnvironmentVars info) w) = None.
Proof.
  intros Hname.
  unfold value_of. rewrite texi2dviEnvironmentVars_run. cbn [fst].
  rewrite inputsEnvironmentVars_value, texmfRoot_missing.
  unfold pdfLatexOption.
  destruct Hname as [<-|[<-|[<-|[]]]];
    destruct (is_windows (platform w)); reflexivity.
Qed.

End MissingRoot.

(** What a successful probe leads to: one launch, with the planned
    arguments and options, and on the console the summary of the launch
    error, if any. *)
Lemma rs_texToPdf_launch_summary (w : World) (file : SEXP)
    (result : ProcessResult) :
  FilePath_empty (findProgram w "texi2dvi") = false ->
  versionProbe w = Ok result ->
  exitStatus result = EXIT_SUCCESS ->
  let procArgs := plannedArgs w (stdOut result) file in
  let procOptions := plannedOptions w (stdOut result) file in
  value_of (rs_texToPdf file) w = R_NilValue /\
  launches (trace_of (rs_texToPdf file) w) =
    [(texi2dviExe w, procArgs, procOptions)] /\
  console_errors (trace_of (rs_texToPdf file) w) =
    match superviseProgram w (texi2dviExe w) procArgs procOptions with
    | Some e => [summary e ++ Str.nl]%string
    | None => []
    end.
Proof.
  intros Hfind Hprobe Hexit procArgs procOptions.
  unfold value_of, trace_of.
  rewrite (rs_texToPdf_launch w file result Hfind Hprobe Hexit).
  cbn [fst snd].
  rewrite launchTrace_launches, launchTrace_console.
  repeat split.
Qed.

(** C2 (as amended).  The composer yields no variable or all three.  When
    the texmf directory under R's share directory does not exist it yields
    none and writes nothing to the console, and the overlay is then the
    fixed entries alone (TEXINDY and LC_COLLATE off Windows, PDFLATEX);
    and if the program is found and its probe succeeds, the compile is
    launched all the same, once, in an environment where each of the
    three search-path variables has its ambient value, the console
    receiving nothing but the summary of a failure of that launch
    itself. *)
Theorem C2_missing_root_composes_nothing :
  forall w : World,
    (length (value_of inputsEnvironmentVars w) = 0 \/
     length (value_of inputsEnvironmentVars w) = 3) /\
    ((forall share : string,
         r_home_share w = Ok share ->
         fs_exists w (absolutePath (complete (mkFilePath share) "texmf"))
           = false) ->
     value_of inputsEnvironmentVars w = [] /\
     console_errors (trace_of inputsEnvironmentVars w) = [] /\
     (forall info : string,
         value_of (texi2dviEnvironmentVars info) w =
         (if is_windows (platform w) then []
          else [("TEXINDY", "false"); ("LC_COLLATE", "C")]) ++
         [pdfLatexOption w]) /\
     forall (file : SEXP) (result : ProcessResult),
       FilePath_empty (findProgram w "texi2dvi") = false ->
       versionProbe w = Ok result ->
       exitStatus result = EXIT_SUCCESS ->
       exists (procArgs : ShellArgs) (procOptions : ProcessOptions)
              (env : Options),
         launches (trace_of (rs_texToPdf file) w) =
           [(texi2dviExe w, procArgs, procOptions)] /\
         environment procOptions = Some env /\
         (forall name : string,
             In name searchPathNames ->
             Env.lookup name env = Env.lookup name (environ w)) /\
         console_errors (trace_of (rs_texToPdf file) w) =
           match superviseProgram w (texi2dviExe w) procArgs procOptions with
           | Some e => [summary e ++ Str.nl]%string
           | None => []
           end).
Proof.
  intros w. split.
  - rewrite inputsEnvironmentVars_value.
    destruct (texmfRoot w); [right|left]; reflexivity.
  - intros Hmissing.
    pose proof (texmfRoot_missing w Hmissing) as Hroot.
    split; [rewrite inputsEnvironmentVars_value, Hroot; reflexivity|].
    split; [rewrite inputsEnvironmentVars_trace; apply rTexmfPaths_no_console|].
    split.
    { intros info. unfold value_of at 1.
      rewrite texi2dviEnvironmentVars_run. cbn [fst].
      rewrite inputsEnvironmentVars_value, Hroot. reflexivity. }
    intros file result Hfind Hprobe Hexit.
    destruct (rs_texToPdf_launch_summary w file result Hfind Hprobe Hexit)
      as (_ & Hlaunch & Hconsole).
    eexists _, _, _. split; [exact Hlaunch|].
    split; [reflexivity|]. split; [|exact Hconsole].
    intros name Hname. rewrite lookup_merge.
    rewrite (overlay_without_root w Hmissing _ name Hname). reflexivity.
Qed.

Lemma C2_missing_root_composes_nothing_witness :
  let w := Sample.with_fs Sample.unix (Sample.only ["/opt/R/share"]) in
  value_of inputsEnvironmentVars w = [] /\
  console_errors (trace_of (rs_texToPdf (R_String "/home/ann/paper.tex")) w)
    = [].
Proof.
  intros w.
  assert (Hmissing : forall share : string,
             r_home_share w = Ok share ->
             fs_exists w (absolutePath (complete (mkFilePath share) "texmf"))
               = false).
  { intros share Hshare. injection Hshare as <-. reflexivity. }
  destruct (C2_missing_root_composes_nothing w) as [_ Hnone].
  destruct (Hnone Hmissing) as (Hvars & _ & _ & Hrun).
  split; [exact Hvars|].
  destruct (Hrun (R_String "/home/ann/paper.tex")
                 (mkProcessResult 0 "texi2dvi (GNU Texinfo 4.13) 1.135" "")
                 eq_refl eq_refl eq_refl)
    as (procArgs & procOptions & env & _ & _ & _ & Hconsole).
  rewrite Hconsole. reflexivity.
Defined.

(** C2 as first stated fails: without the root the environment of the
    launch is not the ambient one.  The overlay still sets PDFLATEX,
    TEXINDY and LC_COLLATE, over what the ambient environment held. *)
Lemma C2_launch_environment_not_ambient_only :
  let w :=
    Sample.with_environ
      (Sample.with_fs Sample.unix (Sample.only ["/opt/R/share"]))
      [("LC_COLLATE", "en_US.UTF-8"); ("PDFLATEX", "pdflatex")] in
  let file := R_String "/home/ann/paper.tex" in
  r_home_share w = Ok "/opt/R/share" /\
  fs_exists w "/opt/R/share/texmf" = false /\
  value_of inputsEnvironmentVars w = [] /\
  exists (exe : string) (args : ShellArgs) (opts : ProcessOptions)
         (env : Options),
    launches (trace_of (rs_texToPdf file) w) = [(exe, args, opts)] /\
    environment opts = Some env /\
    env <> environ w /\
    Env.lookup "LC_COLLATE" (environ w) = Some "en_US.UTF-8" /\
    Env.lookup "LC_COLLATE" env = Some "C" /\
    Env.lookup "PDFLATEX" (environ w) = Some "pdflatex" /\
    Env.lookup "PDFLATEX" env =
      Some "/usr/lib/rstudio/bin/tex/rstudio-pdflatex.sh" /\
    Env.lookup "TEXINDY" (environ w) = None /\
    Env.lookup "TEXINDY" env = Some "false".
Proof.
  cbv zeta.
  split; [reflexivity|]. split; [reflexivity|]. split; [reflexivity|].
  eexists _, _, _, _.
  split; [reflexivity|]. split; [reflexivity|].
  split; [discriminate|]. repeat split.
Qed.

(* ===================================================================== *)
(** * Properties of the argument list *)
(* ===================================================================== *)

(** C3 (as amended).  The argument list is ["--pdf"], ["--quiet"] and
    then either nothing or the two injections [-I] of the tex-inputs
    directory and [-I] of the bst-inputs directory, backslashes replaced;
    the injections are there exactly when the platform is Windows, the
    probe output contains [MiKTeX] and the toolchain root exists.  The
    bib-inputs directory is never injected, and an output without the
    marker, the empty one included, gives the two fixed flags alone. *)
Theorem C3_shell_args :
  forall (w : World) (info : string),
    value_of (texi2dviShellArgs info) w =
      ["--pdf"; "--quiet"] ++
      match (if is_windows (platform w) && Str.contains "MiKTeX" info
             then texmfRoot w else None) with
      | Some root =>
          [ "-I";
            Str.replace_all
              (utf8ToSystem w (absolutePath (childPath root "tex/latex")))
              Str.backslash Str.slash;
            "-I";
            Str.replace_all
              (utf8ToSystem w (absolutePath (childPath root "bibtex/bst")))
              Str.backslash Str.slash ]
      | None => []
      end /\
    (length (value_of (texi2dviShellArgs info) w) = 2 \/
     length (value_of (texi2dviShellArgs info) w) = 6) /\
    value_of (texi2dviShellArgs "") w = ["--pdf"; "--quiet"] /\
    Str.contains "MiKTeX" "" = false.
Proof.
  intros w info.
  assert (Hrun : forall i, value_of (texi2dviShellArgs i) w =
            ["--pdf"; "--quiet"] ++
            match (if is_windows (platform w) && Str.contains "MiKTeX" i
                   then texmfRoot w else None) with
            | Some root => injection w root
            | None => []
            end).
  { intros i. unfold value_of. rewrite texi2dviShellArgs_run. cbn [fst].
    destruct (is_windows (platform w) && Str.contains "MiKTeX" i);
      reflexivity. }
  split; [rewrite Hrun; reflexivity|].
  split.
  - rewrite Hrun.
    destruct (if is_windows (platform w) && Str.contains "MiKTeX" info
              then texmfRoot w else None); [right|left]; reflexivity.
  - split; [|reflexivity].
    rewrite Hrun. cbn [Str.contains String.prefix orb].
    rewrite andb_false_r. reflexivity.
Qed.

(** C3 as first stated fails: on Windows, with [MiKTeX] in the probe
    output, the injections are left out when the root does not exist. *)
Lemma C3_injection_needs_root :
  let w := Sample.with_fs Sample.windows (fun _ => false) in
  let info := "MiKTeX-texify 2.9" in
  platform w = Windows /\
  Str.contains "MiKTeX" info = true /\
  value_of (texi2dviShellArgs info) w = ["--pdf"; "--quiet"] /\
  ~ (In "-I" (value_of (texi2dviShellArgs info) w) <->
     Str.contains "MiKTeX" info = true /\ platform w = Windows).
Proof.
  cbv zeta.
  split; [reflexivity|]. split; [reflexivity|]. split; [reflexivity|].
  intros [_ Hinject].
  assert (Hin : In "-I" ["--pdf"; "--quiet"]) by (apply Hinject; split; reflexivity).
  cbn in Hin. destruct Hin as [H|[H|[]]]; discriminate H.
Qed.

(* ===================================================================== *)
(** * Backslashes on Windows *)
(* ===================================================================== *)



(* ===================================================================== *)
(** * Properties of the launch *)
(* ===================================================================== *)

(** C5.  [executeTexToPdf] launches once; the environment of the launch
    gives every name the overlay sets the overlay's value and every other
    name its ambient value; the arguments are the given ones followed by
    the file's name, which is therefore the last one; the working
    directory is the directory that holds the file. *)
Theorem C5_launch_plan :
  forall (w : World) (texProgramPath : FilePath) (envVars : Options)
         (args : ShellArgs) (texFilePath : FilePath),
  exists (procOptions : ProcessOptions) (env : Options),
    launches
      (trace_of (executeTexToPdf texProgramPath envVars args texFilePath) w) =
      [ (utf8ToSystem w (absolutePath texProgramPath),
         args ++ [filename texFilePath],
         procOptions) ] /\
    last (args ++ [filename texFilePath]) "" = filename texFilePath /\
    environment procOptions = Some env /\
    (forall name : string,
        Env.lookup name env =
        match Env.lookup_last name envVars with
        | Some value => Some value
        | None => Env.lookup name (environ w)
        end) /\
    workingDir procOptions = parent texFilePath.
Proof.
  intros w texProgramPath envVars args texFilePath.
  exists (launchOptions w envVars texFilePath).
  eexists. rewrite executeTexToPdf_trace. cbn [launches].
  split; [reflexivity|]. split; [apply last_last|].
  split; [reflexivity|]. split; [|reflexivity].
  intros name. apply lookup_merge.
Qed.

(** Every launch asks the supervisor to terminate the children of the
    process with it. *)
Lemma launch_terminates_children (w : World) (texProgramPath : FilePath)
    (envVars : Options) (args : ShellArgs) (texFilePath : FilePath) :
  Forall (fun launch => terminateChildren (snd launch) = true)
    (launches
       (trace_of (executeTexToPdf texProgramPath envVars args texFilePath) w)).
Proof.
  rewrite executeTexToPdf_trace. cbn [launches].
  constructor; [reflexivity|constructor].
Qed.

(* ===================================================================== *)
(** * Properties of the entry point *)
(* ===================================================================== *)

(** C6.  When the program is found and its version probe cannot be run,
    or runs and exits with another status than [EXIT_SUCCESS], the entry
    point does the probe and writes to the console, and nothing else: no
    stage is entered (neither the composition of the environment nor the
    construction of the arguments nor the launch), no R call is made, no
    process is launched.  The text on the console is the summary of the
    error, with a line feed, in the first case and the standard error of
    the probe in the second. *)
Theorem C6_failed_probe_short_circuits :
  forall (w : World) (file : SEXP),
    FilePath_empty (findProgram w "texi2dvi") = false ->
    (forall error : Error,
        versionProbe w = Failed error ->
        rs_texToPdf file w =
          (R_NilValue,
           [probeEvent w; EvConsoleError (summary error ++ Str.nl)]) /\
        stages (trace_of (rs_texToPdf file) w) = [] /\
        launches (trace_of (rs_texToPdf file) w) = [] /\
        console_errors (trace_of (rs_texToPdf file) w) =
          [(summary error ++ Str.nl)%string]) /\
    (forall result : ProcessResult,
        versionProbe w = Ok result ->
        exitStatus result <> EXIT_SUCCESS ->
        rs_texToPdf file w =
          (R_NilValue, [probeEvent w; EvConsoleError (stdErr result)]) /\
        stages (trace_of (rs_texToPdf file) w) = [] /\
        launches (trace_of (rs_texToPdf file) w) = [] /\
        console_errors (trace_of (rs_texToPdf file) w) = [stdErr result]).
Proof.
  intros w file Hfind. split.
  - intros error Hprobe. unfold trace_of.
    rewrite (rs_texToPdf_probe_error w file error Hfind Hprobe).
    repeat split.
  - intros result Hprobe Hexit. unfold trace_of.
    rewrite (rs_texToPdf_probe_exit w file result Hfind Hprobe Hexit).
    repeat split.
Qed.

Lemma C6_failed_probe_short_circuits_witness :
  trace_of (rs_texToPdf (R_String "/home/ann/paper.tex"))
    (Sample.with_probe Sample.unix (Failed (mkError "texi2dvi: not run"))) =
    [ probeEvent Sample.unix;
      EvConsoleError ("texi2dvi: not run" ++ Str.nl) ] /\
  trace_of (rs_texToPdf (R_String "/home/ann/paper.tex"))
    (Sample.with_probe Sample.unix
       (Ok (mkProcessResult 1 "" "texi2dvi: unknown option"))) =
    [ probeEvent Sample.unix; EvConsoleError "texi2dvi: unknown option" ].
Proof.
  split.
  - pose proof (proj1 (proj1
      (C6_failed_probe_short_circuits
         (Sample.with_probe Sample.unix (Failed (mkError "texi2dvi: not run")))
         (R_String "/home/ann/paper.tex") eq_refl)
      (mkError "texi2dvi: not run") eq_refl)) as Hrun.
    unfold trace_of. rewrite Hrun. reflexivity.
  - assert (Hexit : 1%Z <> EXIT_SUCCESS) by discriminate.
    pose proof (proj1 (proj2
      (C6_failed_probe_short_circuits
         (Sample.with_probe Sample.unix
            (Ok (mkProcessResult 1 "" "texi2dvi: unknown option")))
         (R_String "/home/ann/paper.tex") eq_refl)
      (mkProcessResult 1 "" "texi2dvi: unknown option") eq_refl Hexit)) as Hrun.
    unfold trace_of. rewrite Hrun. reflexivity.
Defined.

(** C8.  The entry point always returns [R_NilValue].  When the program
    is not found, when its probe cannot be run, when the probe exits with
    another status than [EXIT_SUCCESS] and when the launch of the compile
    fails, it writes exactly one text to the console's error sink: the
    message that [texi2dvi] cannot be found, the summary of the error, the
    standard error of the probe, the summary of the error; when the launch
    succeeds it writes none. *)
Theorem C8_failures_reported_once :
  forall (w : World) (file : SEXP),
    value_of (rs_texToPdf file) w = R_NilValue /\
    (FilePath_empty (findProgram w "texi2dvi") = true ->
     console_errors (trace_of (rs_texToPdf file) w) =
       [("can't find texi2dvi" ++ Str.nl)%string]) /\
    (FilePath_empty (findProgram w "texi2dvi") = false ->
     (forall error : Error,
         versionProbe w = Failed error ->
         console_errors (trace_of (rs_texToPdf file) w) =
           [(summary error ++ Str.nl)%string]) /\
     (forall result : ProcessResult,
         versionProbe w = Ok result ->
         (exitStatus result <> EXIT_SUCCESS ->
          console_errors (trace_of (rs_texToPdf file) w) = [stdErr result]) /\
         (exitStatus result = EXIT_SUCCESS ->
          console_errors (trace_of (rs_texToPdf file) w) =
            match superviseProgram w (texi2dviExe w)
                    (plannedArgs w (stdOut result) file)
                    (plannedOptions w (stdOut result) file) with
            | Some error => [(summary error ++ Str.nl)%string]
            | None => []
            end))).
Proof.
  intros w file.
  destruct (FilePath_empty (findProgram w "texi2dvi")) eqn:Hfind.
  - pose proof (rs_texToPdf_not_found w file Hfind) as Hrun.
    unfold value_of, trace_of. rewrite Hrun.
    split; [reflexivity|]. split; [reflexivity|discriminate].
  - destruct (versionProbe w) as [error|result] eqn:Hprobe.
    + pose proof (rs_texToPdf_probe_error w file error Hfind Hprobe) as Hrun.
      unfold value_of, trace_of. rewrite Hrun.
      split; [reflexivity|]. split; [discriminate|].
      intros _. split.
      * intros error' Herror. injection Herror as <-. reflexivity.
      * intros result Hresult. discriminate Hresult.
    + destruct (Z.eq_dec (exitStatus result) EXIT_SUCCESS) as [Hexit|Hexit].
      * destruct (rs_texToPdf_launch_summary w file result Hfind Hprobe Hexit)
          as (Hvalue & _ & Hconsole).
        split; [exact Hvalue|]. split; [discriminate|].
        intros _. split.
        -- intros error Herror. discriminate Herror.
        -- intros result' Hresult. injection Hresult as <-. split.
           ++ intros Hne. contradiction.
           ++ intros _. exact Hconsole.
      * pose proof (rs_texToPdf_probe_exit w file result Hfind Hprobe Hexit)
          as Hrun.
        unfold value_of, trace_of. rewrite Hrun.
        split; [reflexivity|]. split; [discriminate|].
        intros _. split.
        -- intros error Herror. discriminate Herror.
        -- intros result' Hresult. injection Hresult as <-. split.
           ++ intros _. reflexivity.
           ++ intros Heq. contradiction.
Qed.

Lemma C8_failures_reported_once_witness :
  let file := R_String "/home/ann/paper.tex" in
  let console w := console_errors (trace_of (rs_texToPdf file) w) in
  console (Sample.without_programs Sample.unix) =
    [("can't find texi2dvi" ++ Str.nl)%string] /\
  console (Sample.with_probe Sample.unix (Failed (mkError "cannot run"))) =
    [("cannot run" ++ Str.nl)%string] /\
  console (Sample.with_probe Sample.unix
             (Ok (mkProcessResult 2 "" "bad option"))) = ["bad option"] /\
  console (Sample.with_launch_error Sample.unix (mkError "access denied")) =
    [("access denied" ++ Str.nl)%string] /\
  console Sample.unix = [].
Proof.
  intros file console.
  assert (Hexit : 2%Z <> EXIT_SUCCESS) by discriminate.
  split; [|split; [|split; [|split]]].
  - exact (proj1 (proj2
      (C8_failures_reported_once (Sample.without_programs Sample.unix) file))
      eq_refl).
  - exact (proj1 (proj2 (proj2
      (C8_failures_reported_once
         (Sample.with_probe Sample.unix (Failed (mkError "cannot run"))) file))
      eq_refl) (mkError "cannot run") eq_refl).
  - exact (proj1 (proj2 (proj2 (proj2
      (C8_failures_reported_once
         (Sample.with_probe Sample.unix
            (Ok (mkProcessResult 2 "" "bad option"))) file))
      eq_refl) (mkProcessResult 2 "" "bad option") eq_refl) Hexit).
  - exact (proj2 (proj2 (proj2 (proj2
      (C8_failures_reported_once
         (Sample.with_launch_error Sample.unix (mkError "access denied"))
         file))
      eq_refl) _ eq_refl) eq_refl).
  - exact (proj2 (proj2 (proj2 (proj2
      (C8_failures_reported_once Sample.unix file))
      eq_refl) _ eq_refl) eq_refl).
Defined.

(* ===================================================================== *)
(** * Properties of the overlay *)
(* ===================================================================== *)

(** C9.  The overlay and the effects of building it are the same for any
    two probe outputs, and so are the options of the launch built from it;
    the probe output only reaches the argument list, which does differ
    between an output with the marker and one without. *)
Theorem C9_overlay_ignores_probe_output :
  (forall (w : World) (info1 info2 : string),
      texi2dviEnvironmentVars info1 w = texi2dviEnvironmentVars info2 w) /\
  (forall (w : World) (info1 info2 : string) (file : SEXP),
      plannedOptions w info1 file = plannedOptions w info2 file) /\
  value_of (texi2dviShellArgs "MiKTeX-texify 2.9") Sample.windows <>
  value_of (texi2dviShellArgs "") Sample.windows.
Proof.
  assert (Hsame : forall (w : World) (info1 info2 : string),
             texi2dviEnvironmentVars info1 w = texi2dviEnvironmentVars info2 w).
  { intros w info1 info2. rewrite !texi2dviEnvironmentVars_run. reflexivity. }
  split; [exact Hsame|]. split.
  - intros w info1 info2 file. unfold plannedOptions, value_of.
    rewrite (Hsame w info1 info2). reflexivity.
  - intros Hargs. apply (f_equal (@length string)) in Hargs.
    discriminate Hargs.
Qed.

(** C10.  The overlay is the composer's variables, then off Windows the
    entries TEXINDY=false and LC_COLLATE=C, then the entry PDFLATEX naming
    [rstudio-pdflatex.cmd] on Windows and [rstudio-pdflatex.sh] elsewhere
    in the directory of the tex scripts; that entry is the one in force
    for PDFLATEX, and the overlay is never empty, whatever the composer
    yields. *)
Theorem C10_fixed_overlay_entries :
  forall (w : World) (info : string),
    let overlay := value_of (texi2dviEnvironmentVars info) w in
    let script :=
      ("rstudio-pdflatex" ++
       (if is_windows (platform w) then ".cmd" else ".sh"))%string in
    let pdflatex :=
      ("PDFLATEX",
       utf8ToSystem w (absolutePath (complete (texScriptsPath w) script))) in
    let fixed := if is_windows (platform w) then []
                 else [("TEXINDY", "false"); ("LC_COLLATE", "C")] in
    overlay = value_of inputsEnvironmentVars w ++ fixed ++ [pdflatex] /\
    In pdflatex overlay /\
    Env.lookup_last "PDFLATEX" overlay = Some (snd pdflatex) /\
    incl fixed overlay /\
    overlay <> [].
Proof.
  intros w info overlay script pdflatex fixed.
  assert (Hoverlay :
            overlay = value_of inputsEnvironmentVars w ++ fixed ++ [pdflatex]).
  { unfold overlay, value_of at 1.
    rewrite texi2dviEnvironmentVars_run. reflexivity. }
  split; [exact Hoverlay|]. rewrite Hoverlay.
  split; [|split; [|split]].
  - apply in_or_app. right. apply in_or_app. right. left. reflexivity.
  - rewrite !lookup_last_app. reflexivity.
  - intros entry Hentry. apply in_or_app. right.
    apply in_or_app. left. exact Hentry.
  - intros Hempty. apply app_eq_nil in Hempty. destruct Hempty as [_ Hempty].
    apply app_eq_nil in Hempty. destruct Hempty as [_ Hempty].
    discriminate Hempty.
Qed.

(* ===================================================================== *)
(** * Further properties: the toolchain directories *)
(* ===================================================================== *)

(** X1.  [RTexmfPaths::empty] looks at the tex-inputs path alone, and that
    is enough: in what [rTexmfPaths] returns the three paths are empty
    together or set together, and an empty result is [RTexmfPaths()]. *)
Theorem X1_paths_all_or_nothing :
  forall w : World,
    let paths := value_of rTexmfPaths w in
    FilePath_empty (bibInputsPath paths) = RTexmfPaths_empty paths /\
    FilePath_empty (bstInputsPath paths) = RTexmfPaths_empty paths /\
    (if RTexmfPaths_empty paths then paths = noRTexmfPaths
     else exists root : FilePath,
         texmfRoot w = Some root /\
         fs_exists w (absolutePath root) = true /\
         paths = mkRTexmfPaths (childPath root "tex/latex")
                               (childPath root "bibtex/bib")
                               (childPath root "bibtex/bst")).
Proof.
  intros w paths. unfold paths.
  rewrite rTexmfPaths_empty_iff, rTexmfPaths_value.
  destruct (texmfRoot w) as [root|] eqn:Hroot.
  - cbn [bibInputsPath bstInputsPath].
    rewrite !childPath_not_empty.
    split; [reflexivity|]. split; [reflexivity|].
    exists root. split; [reflexivity|]. split; [|reflexivity].
    unfold texmfRoot in Hroot.
    destruct (r_home_share w) as [e|share]; [discriminate|].
    destruct (fs_exists w share); [|discriminate].
    destruct (fs_exists w (absolutePath (complete (mkFilePath share) "texmf")))
      eqn:Htexmf; [|discriminate].
    injection Hroot as <-. exact Htexmf.
  - repeat split.
Qed.

(** X2.  [rTexmfPaths] asks R for [R.home("share")] exactly once; it
    writes exactly one entry to the log when it returns the empty
    structure and none otherwise; it never writes to the console, runs or
    launches a process. *)
Theorem X2_paths_effects :
  forall w : World,
    r_calls (trace_of rTexmfPaths w) = [("R.home", "share")] /\
    length (log_errors (trace_of rTexmfPaths w)) =
      (if RTexmfPaths_empty (value_of rTexmfPaths w) then 1 else 0) /\
    console_errors (trace_of rTexmfPaths w) = [] /\
    probes (trace_of rTexmfPaths w) = [] /\
    launches (trace_of rTexmfPaths w) = [].
Proof.
  intros w.
  split; [apply rTexmfPaths_r_calls|].
  split; [|split; [apply rTexmfPaths_no_console|split;
                   [apply rTexmfPaths_no_probe|apply rTexmfPaths_no_launch]]].
  rewrite rTexmfPaths_empty_iff.
  unfold rTexmfPaths, texmfRoot. eff_unfold.
  destruct (r_home_share w) as [e|share]; cbn; [reflexivity|].
  destruct (fs_exists w share); cbn; [|reflexivity].
  destruct (fs_exists w _); reflexivity.
Qed.

(* ===================================================================== *)
(** * Further properties: one search-path variable *)
(* ===================================================================== *)

Lemma prefix_append (s t : string) : String.prefix s (s ++ t) = true.
Proof.
  induction s as [|c s IH]; cbn.
  - destruct t; reflexivity.
  - destruct (ascii_dec c c); [exact IH|contradiction].
Qed.

Lemma append_nil_r (s : string) : (s ++ "")%string = s.
Proof.
  induction s as [|c s IH]; cbn; [reflexivity|].
  rewrite IH. reflexivity.
Qed.

(** The joined sequence of [inputsEnvVar] ends with the delimiter. *)
Lemma concat_three (sep first dir : string) :
  String.concat sep [first; dir; ""] = (first ++ sep ++ dir ++ sep)%string.
Proof. cbn [String.concat]. rewrite append_nil_r. reflexivity. Qed.

Lemma replace_all_absent (s : string) (a b : ascii) :
  Str.count a s = 0 -> Str.replace_all s a b = s.
Proof.
  induction s as [|d s IH]; cbn; [reflexivity|].
  destruct (Ascii.eqb_spec d a); [discriminate|].
  intros H. rewrite IH by exact H. reflexivity.
Qed.

Lemma replace_all_length (s : string) (a b : ascii) :
  String.length (Str.replace_all s a b) = String.length s.
Proof.
  induction s as [|d s IH]; cbn; [reflexivity|].
  rewrite IH. reflexivity.
Qed.

Lemma append_length (s t : string) :
  String.length (s ++ t) = String.length s + String.length t.
Proof.
  induction s as [|c s IH]; cbn; [reflexivity|].
  rewrite IH. reflexivity.
Qed.

(** X3.  A variable that is set keeps its value in front: when the
    ambient value is not empty and is not subject to the replacement
    (the flag is off, or the platform is not Windows), [inputsEnvVar]
    yields the given name with the ambient value, the delimiter, the
    directory and the delimiter, so that the ambient value is a prefix of
    the result. *)
Theorem X3_ambient_value_first :
  forall (w : World) (name : string) (extraPath : FilePath) (flag : bool),
    let ambient := value_of (getenv name) w in
    let sep := Env.pathSeparator (platform w) in
    ambient <> "" ->
    platform w = Posix \/ flag = false ->
    value_of (inputsEnvVar name extraPath flag) w =
      (name,
       (ambient ++ sep ++ utf8ToSystem w (absolutePath extraPath) ++ sep)%string)
    /\
    String.prefix ambient (snd (value_of (inputsEnvVar name extraPath flag) w))
      = true.
Proof.
  intros w name extraPath flag ambient sep Hset Hplain.
  assert (Hvalue :
            value_of (inputsEnvVar name extraPath flag) w =
            (name,
             (ambient ++ sep ++
              utf8ToSystem w (absolutePath extraPath) ++ sep)%string)).
  { unfold value_of at 1. rewrite inputsEnvVar_run. cbn [fst].
    unfold ambientOrDot. fold ambient.
    destruct ambient as [|c rest]; [contradiction|]. cbn [Str.empty].
    assert (Hoff : is_windows (platform w) && flag = false).
    { destruct Hplain as [-> | ->]; [reflexivity|apply andb_false_r]. }
    rewrite Hoff, concat_three. reflexivity. }
  split; [exact Hvalue|].
  rewrite Hvalue. cbn [snd]. apply prefix_append.
Qed.

Lemma X3_ambient_value_first_witness :
  value_of (inputsEnvVar "BIBINPUTS" (mkFilePath "C:/R/share/texmf/bibtex/bib")
                         false) Sample.windows =
    ("BIBINPUTS", "C:\my\bib;C:/R/share/texmf/bibtex/bib;").
Proof.
  assert (Hset : value_of (getenv "BIBINPUTS") Sample.windows <> "")
    by discriminate.
  exact (proj1 (X3_ambient_value_first Sample.windows "BIBINPUTS"
                  (mkFilePath "C:/R/share/texmf/bibtex/bib") false
                  Hset (or_intror eq_refl))).
Defined.

(** X4.  The flag [ensureForwardSlashes] changes the outcome only on
    Windows and only for an ambient value that holds a backslash: off
    Windows, or with no backslash in the ambient value, [inputsEnvVar]
    yields the same with the flag as without it.  On any platform the
    flag leaves the length of the value alone. *)
Theorem X4_flag_matters_only_for_backslashes :
  forall (w : World) (name : string) (extraPath : FilePath),
    (platform w = Posix \/
     Str.count Str.backslash (value_of (getenv name) w) = 0 ->
     inputsEnvVar name extraPath true w =
     inputsEnvVar name extraPath false w) /\
    String.length (snd (value_of (inputsEnvVar name extraPath true) w)) =
    String.length (snd (value_of (inputsEnvVar name extraPath false) w)).
Proof.
  intros w name extraPath. rewrite !inputsEnvVar_run.
  unfold value_of. rewrite !inputsEnvVar_run. cbn [fst snd].
  rewrite andb_false_r. split.
  - intros [Hpf | Hnone].
    + rewrite Hpf. reflexivity.
    + destruct (is_windows (platform w)); [|reflexivity]. cbn [andb].
      rewrite replace_all_absent; [reflexivity|].
      unfold ambientOrDot.
      destruct (value_of (getenv name) w) eqn:Hamb; [reflexivity|].
      cbn [Str.empty]. unfold value_of in Hamb.
      rewrite Hamb in Hnone. exact Hnone.
  - destruct (is_windows (platform w)); [|reflexivity].
    cbn [andb]. rewrite !concat_three.
    rewrite !append_length, replace_all_length. reflexivity.
Qed.

Lemma X4_flag_matters_only_for_backslashes_witness :
  inputsEnvVar "TEXINPUTS" (mkFilePath "/opt/R/share/texmf/tex/latex") true
    Sample.unix =
  inputsEnvVar "TEXINPUTS" (mkFilePath "/opt/R/share/texmf/tex/latex") false
    Sample.unix.
Proof.
  exact (proj1 (X4_flag_matters_only_for_backslashes Sample.unix "TEXINPUTS"
                  (mkFilePath "/opt/R/share/texmf/tex/latex"))
               (or_introl eq_refl)).
Defined.

(* ===================================================================== *)
(** * Further properties: the argument list *)
(* ===================================================================== *)

Lemma prefix_iff (needle hay : string) :
  String.prefix needle hay = true <->
  exists post : string, hay = (needle ++ post)%string.
Proof.
  revert hay.
  induction needle as [|c needle IH]; intros hay.
  - split; [intros _; exists hay; reflexivity|].
    intros _. destruct hay; reflexivity.
  - destruct hay as [|d hay]; cbn [String.prefix append].
    + split; [discriminate|intros [post H]; discriminate H].
    + destruct (ascii_dec c d) as [<-|Hne].
      * split.
        -- intros Hprefix. apply IH in Hprefix.
           destruct Hprefix as [post H]. exists post. rewrite H. reflexivity.
        -- intros [post H]. injection H as H. apply IH. exists post. exact H.
      * split; [discriminate|].
        intros [post H]. injection H as Hc _. congruence.
Qed.

(** [Str.contains] is the test for a substring. *)
Lemma contains_iff (needle hay : string) :
  Str.contains needle hay = true <->
  exists pre post : string, hay = (pre ++ needle ++ post)%string.
Proof.
  induction hay as [|d hay IH]; cbn [Str.contains].
  - rewrite orb_false_r, prefix_iff. split.
    + intros [post H]. exists "", post. exact H.
    + intros [pre [post H]].
      destruct pre as [|c pre]; [exists post; exact H|discriminate H].
  - rewrite orb_true_iff, prefix_iff, IH. split.
    + intros [[post H]|[pre [post H]]].
      * exists "", post. exact H.
      * exists (String d pre), post. rewrite H. reflexivity.
    + intros [pre [post H]]. destruct pre as [|c pre].
      * left. exists post. exact H.
      * right. injection H as _ H. exists pre, post. exact H.
Qed.

(** X5.  [texi2dviShellArgs] asks R for the share directory exactly when
    the platform is Windows and the probe output contains [MiKTeX], and
    then once; otherwise it has no effect on the outside and yields the
    two fixed flags whatever the file system and R hold. *)
Theorem X5_args_consult_R_only_for_MiKTeX :
  forall (w : World) (info : string),
    r_calls (trace_of (texi2dviShellArgs info) w) =
      (if is_windows (platform w) && Str.contains "MiKTeX" info
       then [("R.home", "share")] else []) /\
    (is_windows (platform w) && Str.contains "MiKTeX" info = false ->
     texi2dviShellArgs info w =
       (["--pdf"; "--quiet"], [EvEnter "texi2dviShellArgs"])).
Proof.
  intros w info. rewrite texi2dviShellArgs_trace, texi2dviShellArgs_run.
  destruct (is_windows (platform w) && Str.contains "MiKTeX" info).
  - split; [|discriminate]. cbn [r_calls]. apply rTexmfPaths_r_calls.
  - split; reflexivity.
Qed.

Lemma X5_args_consult_R_only_for_MiKTeX_witness :
  texi2dviShellArgs "MiKTeX-texify 2.9" Sample.unix =
    (["--pdf"; "--quiet"], [EvEnter "texi2dviShellArgs"]).
Proof.
  exact (proj2 (X5_args_consult_R_only_for_MiKTeX Sample.unix
                  "MiKTeX-texify 2.9") eq_refl).
Defined.

(** X6.  No argument [texi2dviShellArgs] yields holds a backslash, whatever
    the directories and the system encoding are. *)
Theorem X6_args_hold_no_backslash :
  forall (w : World) (info : string),
    Forall (fun arg => Str.count Str.backslash arg = 0)
           (value_of (texi2dviShellArgs info) w).
Proof.
  intros w info. unfold value_of. rewrite texi2dviShellArgs_run. cbn [fst].
  apply Forall_app. split.
  - repeat constructor.
  - destruct (is_windows (platform w) && Str.contains "MiKTeX" info);
      [|constructor].
    destruct (texmfRoot w) as [root|]; [|constructor].
    unfold injection.
    repeat constructor; apply count_replace_all, backslash_not_slash.
Qed.

(** X7.  The two consumers of [rTexmfPaths] agree: on Windows with
    [MiKTeX] in the probe output, the argument list carries the two
    injections exactly when the composer yields the three search-path
    variables. *)
Theorem X7_injections_go_with_variables :
  forall (w : World) (info : string),
    platform w = Windows ->
    Str.contains "MiKTeX" info = true ->
    (length (value_of (texi2dviShellArgs info) w) = 6 <->
     length (value_of inputsEnvironmentVars w) = 3) /\
    (value_of (texi2dviShellArgs info) w = ["--pdf"; "--quiet"] <->
     value_of inputsEnvironmentVars w = []).
Proof.
  intros w info Hpf Hmarker.
  unfold value_of at 1 3. rewrite texi2dviShellArgs_run. cbn [fst].
  rewrite inputsEnvironmentVars_value, Hpf, Hmarker. cbn [is_windows andb].
  destruct (texmfRoot w) as [root|]; cbn [app injection length].
  - split; split; intros H; try reflexivity; discriminate H.
  - split; split; intros H; try reflexivity; discriminate H.
Qed.

Lemma X7_injections_go_with_variables_witness :
  length (value_of (texi2dviShellArgs "MiKTeX-texify 2.9") Sample.windows) = 6.
Proof.
  apply (proj1 (X7_injections_go_with_variables Sample.windows
                  "MiKTeX-texify 2.9" eq_refl eq_refl)).
  reflexivity.
Defined.

(** X8.  On Windows under an existing root, the argument list carries an
    injection flag exactly when [MiKTeX] occurs somewhere in the probe
    output, with any text before and after it. *)
Theorem X8_marker_anywhere :
  forall (w : World) (root : FilePath) (info : string),
    platform w = Windows ->
    texmfRoot w = Some root ->
    (In "-I" (value_of (texi2dviShellArgs info) w) <->
     exists pre post : string, info = (pre ++ "MiKTeX" ++ post)%string).
Proof.
  intros w root info Hpf Hroot.
  rewrite <- contains_iff.
  unfold value_of. rewrite texi2dviShellArgs_run. cbn [fst].
  rewrite Hpf, Hroot. cbn [is_windows andb].
  destruct (Str.contains "MiKTeX" info).
  - split; [reflexivity|]. intros _. cbn. right. right. left. reflexivity.
  - split; [|discriminate].
    cbn. intros [H|[H|[]]]; discriminate H.
Qed.

Lemma X8_marker_anywhere_witness :
  In "-I" (value_of (texi2dviShellArgs "This is MiKTeX-texify 2.9")
                    Sample.windows).
Proof.
  apply (proj2 (X8_marker_anywhere Sample.windows
                  (mkFilePath "C:\R\share/texmf") "This is MiKTeX-texify 2.9"
                  eq_refl eq_refl)).
  exists "This is ", "-texify 2.9". reflexivity.
Defined.

(* ===================================================================== *)
(** * Further properties: the overlay in the child's environment *)
(* ===================================================================== *)

Lemma lookup_last_absent (name : string) (vars : Options) :
  ~ In name (map fst vars) -> Env.lookup_last name vars = None.
Proof.
  induction vars as [|[n v] vars IH]; cbn; [reflexivity|].
  intros Hout. rewrite IH by tauto.
  destruct (String.eqb_spec n name); [|reflexivity].
  exfalso. apply Hout. left. assumption.
Qed.

(** With distinct names each entry is the one in force for its name. *)
Lemma lookup_last_distinct (vars : Options) (name value : string) :
  NoDup (map fst vars) ->
  In (name, value) vars ->
  Env.lookup_last name vars = Some value.
Proof.
  induction vars as [|[n v] vars IH]; cbn; [intros _ []|].
  intros Hdistinct Hin. inversion Hdistinct as [|? ? Hout Hrest]; subst.
  destruct Hin as [Hhead|Htail].
  - injection Hhead as -> ->.
    rewrite (lookup_last_absent name vars Hout), String.eqb_refl. reflexivity.
  - rewrite (IH Hrest Htail). reflexivity.
Qed.

(** The names the overlay sets, in order. *)
Lemma overlay_names (w : World) (info : string) :
  map fst (value_of (texi2dviEnvironmentVars info) w) =
  (match texmfRoot w with Some _ => searchPathNames | None => [] end) ++
  (if is_windows (platform w) then [] else ["TEXINDY"; "LC_COLLATE"]) ++
  ["PDFLATEX"].
Proof.
  unfold value_of at 1. rewrite texi2dviEnvironmentVars_run. cbn [fst].
  rewrite inputsEnvironmentVars_value, !map_app.
  f_equal; [|f_equal].
  - destruct (texmfRoot w); [|reflexivity].
    unfold value_of. rewrite !inputsEnvVar_run. reflexivity.
  - destruct (is_windows (platform w)); reflexivity.
Qed.

Lemma overlay_names_distinct (w : World) (info : string) :
  NoDup (map fst (value_of (texi2dviEnvironmentVars info) w)).
Proof.
  rewrite overlay_names.
  destruct (texmfRoot w), (is_windows (platform w));
    cbn [searchPathNames app];
    repeat (constructor; [cbn [In]; intuition discriminate|]);
    constructor.
Qed.

(** X9.  The overlay [texi2dviEnvironmentVars] builds never names a
    variable twice, so that in the environment [executeTexToPdf] launches
    with every entry of the overlay is in force as it stands, whatever the
    ambient environment held under that name. *)
Theorem X9_overlay_entries_in_force :
  forall (w : World) (info : string) (texProgramPath : FilePath)
         (args : ShellArgs) (texFilePath : FilePath),
    let overlay := value_of (texi2dviEnvironmentVars info) w in
    NoDup (map fst overlay) /\
    exists (exe : string) (procArgs : ShellArgs) (procOptions : ProcessOptions)
           (env : Options),
      launches
        (trace_of (executeTexToPdf texProgramPath overlay args texFilePath) w)
        = [(exe, procArgs, procOptions)] /\
      environment procOptions = Some env /\
      forall name value : string,
        In (name, value) overlay -> Env.lookup name env = Some value.
Proof.
  intros w info texProgramPath args texFilePath overlay.
  split; [apply overlay_names_distinct|].
  rewrite executeTexToPdf_trace. cbn [launches].
  eexists _, _, (launchOptions w overlay texFilePath), _.
  split; [reflexivity|]. split; [reflexivity|].
  intros name value Hin. rewrite lookup_merge.
  rewrite (lookup_last_distinct overlay name value
             (overlay_names_distinct w info) Hin).
  reflexivity.
Qed.

Lemma X9_overlay_entries_in_force_witness :
  exists env : Options,
    environment
      (launchOptions Sample.unix
         (value_of (texi2dviEnvironmentVars "") Sample.unix)
         (mkFilePath "/home/ann/paper.tex")) = Some env /\
    Env.lookup "LC_COLLATE" env = Some "C".
Proof.
  destruct (X9_overlay_entries_in_force Sample.unix ""
              (mkFilePath "/usr/bin/texi2dvi") []
              (mkFilePath "/home/ann/paper.tex"))
    as (_ & exe & procArgs & procOptions & env & Hlaunch & Henv & Hforce).
  injection Hlaunch as _ _ <-.
  exists env. split; [exact Henv|].
  apply Hforce. cbn. tauto.
Defined.

(* ===================================================================== *)
(** * Further properties: the entry point *)
(* ===================================================================== *)

(** X10.  The entry point probes at most once and launches at most once.
    A launch only follows a probe of the same program that ran and exited
    with [EXIT_SUCCESS]: the probe is the first event of the run, and the
    probe and the entries of the three stages, the two arguments in the
    order of the compiled program and then [executeTexToPdf], all come
    before the launch, after which no stage is entered and nothing is
    probed.  A run that launches nothing has entered no stage, has not
    consulted R, and has written exactly one text to the console's error
    sink. *)
Theorem X10_launch_needs_successful_probe :
  forall (w : World) (file : SEXP),
    let trace := trace_of (rs_texToPdf file) w in
    length (probes trace) <= 1 /\
    length (launches trace) <= 1 /\
    (forall (exe : string) (args : ShellArgs) (opts : ProcessOptions),
        In (exe, args, opts) (launches trace) ->
        FilePath_empty (findProgram w "texi2dvi") = false /\
        (exists result : ProcessResult,
            versionProbe w = Ok result /\
            exitStatus result = EXIT_SUCCESS) /\
        exists before after : list Event,
          trace =
            before ++
            EvSupervise exe args opts
              {| onStdout := ConsoleOutput; onStderr := ConsoleError |}
            :: after /\
          hd_error before =
            Some (EvRunProgram exe ["--version"] "" defaultProcessOptions) /\
          probes before =
            [(exe, ["--version"], "", defaultProcessOptions)] /\
          stages before =
            (if shellArgsFirst w
             then ["texi2dviShellArgs"; "texi2dviEnvironmentVars";
                   "executeTexToPdf"]
             else ["texi2dviEnvironmentVars"; "texi2dviShellArgs";
                   "executeTexToPdf"]) /\
          launches before = [] /\
          probes after = [] /\
          stages after = []) /\
    (launches trace = [] ->
     stages trace = [] /\
     r_calls trace = [] /\
     length (console_errors trace) = 1).
Proof.
  intros w file trace. unfold trace.
  destruct (rs_texToPdf_run w file)
    as [Hfind Htrace | error Hfind Hprobe Htrace
        | result Hfind Hprobe Hexit Htrace
        | result Hfind Hprobe Hexit Htrace];
    rewrite Htrace.
  - cbn. repeat split; try lia; try tauto.
  - cbn. repeat split; try lia; try tauto.
  - cbn. repeat split; try lia; try tauto.
  - rewrite launchTrace_launches, launchTrace_probes.
    cbn [length]. split; [lia|]. split; [lia|]. split.
    + intros exe args opts [Hin|[]]. injection Hin as <- <- <-.
      split; [exact Hfind|]. split; [exists result; tauto|].
      destruct (launchTrace_order w file (stdOut result))
        as (before & after & Hsplit & Hhead & Hprobes & Hstages & Hnone
            & Hafter & Hquiet & _).
      exists before, after. tauto.
    + discriminate.
Qed.

Lemma X10_launch_needs_successful_probe_witness :
  length (console_errors
            (trace_of (rs_texToPdf (R_String "/home/ann/paper.tex"))
                      (Sample.without_programs Sample.unix))) = 1 /\
  exists before after : list Event,
    trace_of (rs_texToPdf (R_String "/home/ann/paper.tex")) Sample.unix =
      before ++
      EvSupervise "/usr/bin/texi2dvi" ["--pdf"; "--quiet"; "paper.tex"]
        (plannedOptions Sample.unix "texi2dvi (GNU Texinfo 4.13) 1.135"
           (R_String "/home/ann/paper.tex"))
        {| onStdout := ConsoleOutput; onStderr := ConsoleError |}
      :: after /\
    probes before =
      [("/usr/bin/texi2dvi", ["--version"], "", defaultProcessOptions)].
Proof.
  split.
  - apply (proj2 (proj2 (proj2
      (X10_launch_needs_successful_probe
         (Sample.without_programs Sample.unix)
         (R_String "/home/ann/paper.tex"))))).
    reflexivity.
  - assert (Hin :
      In ("/usr/bin/texi2dvi", ["--pdf"; "--quiet"; "paper.tex"],
          plannedOptions Sample.unix "texi2dvi (GNU Texinfo 4.13) 1.135"
            (R_String "/home/ann/paper.tex"))
         (launches
            (trace_of (rs_texToPdf (R_String "/home/ann/paper.tex"))
                      Sample.unix))).
    { left. reflexivity. }
    destruct (proj1 (proj2 (proj2
      (X10_launch_needs_successful_probe Sample.unix
         (R_String "/home/ann/paper.tex")))) _ _ _ Hin)
      as (_ & _ & before & after & Hsplit & _ & Hprobes & _).
    exists before, after. split; [exact Hsplit|exact Hprobes].
Defined.

(** X11.  Whatever the entry point launches has the arguments ["--pdf"]
    and ["--quiet"] first and the name of the resolved file last, runs in
    the directory that holds the file, asks for the children to be
    terminated with the process, and carries an environment in which
    PDFLATEX is the wrapper script, whatever the ambient PDFLATEX was. *)
Theorem X11_shape_of_the_launch :
  forall (w : World) (file : SEXP)
         (exe : string) (args : ShellArgs) (opts : ProcessOptions),
    In (exe, args, opts) (launches (trace_of (rs_texToPdf file) w)) ->
    let texFilePath := resolveAliasedPath w (asString file) in
    firstn 2 args = ["--pdf"; "--quiet"] /\
    last args "" = filename texFilePath /\
    workingDir opts = parent texFilePath /\
    terminateChildren opts = true /\
    exists env : Options,
      environment opts = Some env /\
      Env.lookup "PDFLATEX" env = Some (snd (pdfLatexOption w)).
Proof.
  intros w file exe args opts Hin texFilePath.
  destruct (rs_texToPdf_run w file)
    as [Hfind Htrace | error Hfind Hprobe Htrace
        | result Hfind Hprobe Hexit Htrace
        | result Hfind Hprobe Hexit Htrace];
    rewrite Htrace in Hin; try (cbn in Hin; contradiction).
  rewrite launchTrace_launches in Hin.
  destruct Hin as [Hin|[]]. injection Hin as _ <- <-.
  unfold plannedArgs, plannedOptions. fold texFilePath.
  split; [|split; [apply last_last|split; [reflexivity|split; [reflexivity|]]]].
  - unfold value_of. rewrite texi2dviShellArgs_run. reflexivity.
  - eexists. split; [reflexivity|].
    rewrite lookup_merge.
    unfold value_of at 1. rewrite texi2dviEnvironmentVars_run. cbn [fst].
    rewrite !lookup_last_app. reflexivity.
Qed.

Lemma X11_shape_of_the_launch_witness :
  last ["--pdf"; "--quiet"; "paper.tex"] "" =
  filename (mkFilePath "/home/ann/paper.tex").
Proof.
  refine (proj1 (proj2
    (X11_shape_of_the_launch Sample.unix (R_String "/home/ann/paper.tex")
       "/usr/bin/texi2dvi" ["--pdf"; "--quiet"; "paper.tex"]
       (plannedOptions Sample.unix "texi2dvi (GNU Texinfo 4.13) 1.135"
          (R_String "/home/ann/paper.tex")) _))).
  left. reflexivity.
Defined.

(** X12.  On a run that reaches the launch R is asked for its share
    directory once, and a second time when the platform is Windows and the
    probe output contains [MiKTeX]; when the root does not exist each of
    these consultations leaves one entry in the log, and when it exists
    the log receives nothing. *)
Theorem X12_consultations_of_R :
  forall (w : World) (file : SEXP) (result : ProcessResult),
    FilePath_empty (findProgram w "texi2dvi") = false ->
    versionProbe w = Ok result ->
    exitStatus result = EXIT_SUCCESS ->
    let trace := trace_of (rs_texToPdf file) w in
    let twice :=
      is_windows (platform w) && Str.contains "MiKTeX" (stdOut result) in
    r_calls trace = repeat ("R.home", "share") (if twice then 2 else 1) /\
    length (log_errors trace) =
      match texmfRoot w with
      | Some _ => 0
      | None => length (r_calls trace)
      end.
Proof.
  intros w file result Hfind Hprobe Hexit trace twice.
  unfold trace, trace_of.
  rewrite (rs_texToPdf_launch w file result Hfind Hprobe Hexit). cbn [snd].
  rewrite launchTrace_r_calls, launchTrace_log_count. fold twice.
  split; [reflexivity|].
  destruct (texmfRoot w); [reflexivity|]. destruct twice; reflexivity.
Qed.

Lemma X12_consultations_of_R_witness :
  r_calls (trace_of (rs_texToPdf (R_String "C:/doc/paper.tex")) Sample.windows)
    = [("R.home", "share"); ("R.home", "share")].
Proof.
  exact (proj1 (X12_consultations_of_R Sample.windows
                  (R_String "C:/doc/paper.tex")
                  (mkProcessResult 0 "MiKTeX-texify 2.9" "")
                  eq_refl eq_refl eq_refl)).
Defined.

(** X13.  On a run that reaches the launch under an existing root, the
    child's environment holds for each of the three search-path variables
    the composed value, in place of the ambient one: the ambient value
    (["."] when empty; for TEXINPUTS on Windows without its backslashes),
    the directory under the root and the empty segment, joined by the
    delimiter. *)
Theorem X13_child_search_paths :
  forall (w : World) (file : SEXP) (result : ProcessResult) (root : FilePath),
    FilePath_empty (findProgram w "texi2dvi") = false ->
    versionProbe w = Ok result ->
    exitStatus result = EXIT_SUCCESS ->
    texmfRoot w = Some root ->
    let sep := Env.pathSeparator (platform w) in
    let dir rel := utf8ToSystem w (absolutePath (childPath root rel)) in
    exists (exe : string) (args : ShellArgs) (opts : ProcessOptions)
           (env : Options),
      launches (trace_of (rs_texToPdf file) w) = [(exe, args, opts)] /\
      environment opts = Some env /\
      Env.lookup "TEXINPUTS" env =
        Some (String.concat sep
                [ (if is_windows (platform w)
                   then Str.replace_all (ambientOrDot w "TEXINPUTS")
                                        Str.backslash Str.slash
                   else ambientOrDot w "TEXINPUTS");
                  dir "tex/latex"; "" ]) /\
      Env.lookup "BIBINPUTS" env =
        Some (String.concat sep
                [ambientOrDot w "BIBINPUTS"; dir "bibtex/bib"; ""]) /\
      Env.lookup "BSTINPUTS" env =
        Some (String.concat sep
                [ambientOrDot w "BSTINPUTS"; dir "bibtex/bst"; ""]).
Proof.
  intros w file result root Hfind Hprobe Hexit Hroot sep dir.
  unfold trace_of.
  rewrite (rs_texToPdf_launch w file result Hfind Hprobe Hexit). cbn [snd].
  rewrite launchTrace_launches.
  eexists _, _, _, _. split; [reflexivity|].
  unfold plannedOptions, launchOptions. cbn [environment].
  split; [reflexivity|].
  pose proof (overlay_names_distinct w (stdOut result)) as Hdistinct.
  assert (Hoverlay :
            forall entry : Option,
              In entry (value_of inputsEnvironmentVars w) ->
              In entry (value_of (texi2dviEnvironmentVars (stdOut result)) w)).
  { intros entry Hin. unfold value_of at 1.
    rewrite texi2dviEnvironmentVars_run. cbn [fst].
    apply in_or_app. left. exact Hin. }
  rewrite inputsEnvironmentVars_value, Hroot in Hoverlay.
  unfold value_of at 1 2 3 in Hoverlay.
  rewrite !inputsEnvVar_run in Hoverlay. cbn [fst] in Hoverlay.
  rewrite andb_true_r, !andb_false_r in Hoverlay.
  rewrite !lookup_merge.
  split; [|split];
    (erewrite lookup_last_distinct;
     [reflexivity | exact Hdistinct | apply Hoverlay; cbn [In]; tauto]).
Qed.

Lemma X13_child_search_paths_witness :
  exists env : Options,
    environment
      (plannedOptions Sample.windows "MiKTeX-texify 2.9"
         (R_String "C:/doc/paper.tex")) = Some env /\
    Env.lookup "TEXINPUTS" env = Some "C:/my/tex;C:\R\share/texmf/tex/latex;" /\
    Env.lookup "BIBINPUTS" env =
      Some "C:\my\bib;C:\R\share/texmf/bibtex/bib;".
Proof.
  destruct (X13_child_search_paths Sample.windows (R_String "C:/doc/paper.tex")
              (mkProcessResult 0 "MiKTeX-texify 2.9" "")
              (mkFilePath "C:\R\share/texmf") eq_refl eq_refl eq_refl eq_refl)
    as (exe & args & opts & env & Hlaunch & Henv & Htex & Hbib & _).
  injection Hlaunch as _ _ <-.
  exists env. split; [exact Henv|]. split; [exact Htex|exact Hbib].
Defined.

(** X14.  The environment of the launch differs from the ambient one in
    at most six variables: a name other than TEXINPUTS, BIBINPUTS,
    BSTINPUTS, TEXINDY, LC_COLLATE and PDFLATEX has its ambient value (or
    none); on Windows this also holds of TEXINDY and LC_COLLATE, and
    without the root of the three search-path variables. *)
Theorem X14_launch_changes_six_variables_at_most :
  forall (w : World) (info : string) (file : SEXP) (name : string),
    ~ In name
        ((match texmfRoot w with Some _ => searchPathNames | None => [] end) ++
         (if is_windows (platform w) then [] else ["TEXINDY"; "LC_COLLATE"]) ++
         ["PDFLATEX"]) ->
    exists env : Options,
      environment (plannedOptions w info file) = Some env /\
      Env.lookup name env = Env.lookup name (environ w).
Proof.
  intros w info file name Hother.
  eexists. split; [reflexivity|].
  rewrite lookup_merge, lookup_last_absent; [reflexivity|].
  rewrite overlay_names. exact Hother.
Qed.

Lemma X14_launch_changes_six_variables_at_most_witness :
  exists env : Options,
    environment
      (plannedOptions Sample.unix "" (R_String "/home/ann/paper.tex"))
      = Some env /\
    Env.lookup "HOME" env = Some "/home/ann".
Proof.
  assert (Hother :
            ~ In "HOME"
                ((match texmfRoot Sample.unix with
                  | Some _ => searchPathNames
                  | None => []
                  end) ++
                 (if is_windows (platform Sample.unix) then []
                  else ["TEXINDY"; "LC_COLLATE"]) ++ ["PDFLATEX"])).
  { cbn. intuition discriminate. }
  destruct (X14_launch_changes_six_variables_at_most Sample.unix ""
              (R_String "/home/ann/paper.tex") "HOME" Hother)
    as (env & Henv & Hlookup).
  exists env. split; [exact Henv|]. rewrite Hlookup. reflexivity.
Defined.
